(** * timeturner: the snapshot store of [timeturner_app.py]

    A shallow embedding of the [Database] class (the snapshot store) and of
    the unit of work that [TimeTurnerApp.__call__] wraps around every call,
    followed by the properties of the store.

    Modelling decisions.
    - A naive [datetime.datetime] is the integer number of microseconds since
      0001-01-01 00:00:00, a [datetime.date] the number of days since
      0001-01-01, a [datetime.timedelta] a number of microseconds.  Instants
      range over all of [Z]: the end of Python's representable range (years
      1 to 9999, where datetime arithmetic raises [OverflowError]) is not part
      of the model.
    - Byte strings ([str] of Python 2) are [string], compared byte by byte
      as SQLite's BINARY collation does; the raw contents of a snapshot are a
      [list byte]; code points are [N].  What Python 2 and the SQLite driver
      make of non-ASCII text in a hostname or a title (the coercions between
      [str] and [unicode]) is not part of the model.
    - The session is the list of rows of table [snapshot] that it sees, in
      insertion order.  Every [Database] method runs as one unit of work on
      it, as in [TimeTurnerApp.__call__].
    - [csv_contents.decode('utf-8', 'replace')] is the codec of the Python
      runtime; the store is developed for an arbitrary decoder, and
      [Utf8.decode_replace] is one concrete decoder to run it with. *)

From Stdlib Require Import ZArith NArith List Bool Lia.
From Stdlib.Strings Require Import String Ascii Byte.
From Stdlib Require Import Permutation Sorted DecimalString DecimalN.
From Stdlib Require Import OrderedTypeEx.
Import ListNotations.

Local Open Scope Z_scope.

(** ** Dates and times *)

Module DateTime.

Definition datetime := Z.
Definition date := Z.
Definition timedelta := Z.

Definition MICROSECOND : timedelta := 1.
Definition SECOND : timedelta := 1000000.
Definition MINUTE : timedelta := 60 * SECOND.
Definition DAY : timedelta := 86400 * SECOND.

(** [datetime.timedelta(days=d)], [datetime.timedelta(seconds=s)]. *)
Definition timedelta_days (d : Z) : timedelta := d * DAY.
Definition timedelta_seconds (s : Z) : timedelta := s * SECOND.

(** The fields of a datetime that the store looks at. *)
Definition microsecond (t : datetime) : Z := t mod SECOND.
Definition second (t : datetime) : Z := (t / SECOND) mod 60.
Definition minute (t : datetime) : Z := (t / MINUTE) mod 60.
Definition hour (t : datetime) : Z := (t / (60 * MINUTE)) mod 24.

(** [t.date()]. *)
Definition to_date (t : datetime) : date := t / DAY.

(** A date used where a datetime is expected (bound to the [DateTime]
    column) stands for its midnight. *)
Definition of_date (d : date) : datetime := d * DAY.

(** [t.replace(second=0, microsecond=0)]. *)
Definition replace_second_microsecond_0 (t : datetime) : datetime :=
  t - second t * SECOND - microsecond t.

(** [datetime.datetime(y, m, d, hh, mm, ss)], the proleptic Gregorian
    calendar of the [datetime] module. *)
Definition is_leap (y : Z) : bool :=
  (y mod 4 =? 0) && (negb (y mod 100 =? 0) || (y mod 400 =? 0)).

Definition days_before_year (y : Z) : Z :=
  let p := y - 1 in p * 365 + p / 4 - p / 100 + p / 400.

Definition days_in_month (y m : Z) : Z :=
  if m =? 2 then (if is_leap y then 29 else 28)
  else if (m =? 4) || (m =? 6) || (m =? 9) || (m =? 11) then 30 else 31.

Definition days_before_month (y m : Z) : Z :=
  fold_right Z.add 0
    (map (days_in_month y) (map Z.of_nat (seq 1 (Z.to_nat (m - 1))))).

Definition mk_date (y m d : Z) : date :=
  days_before_year y + days_before_month y m + (d - 1).

Definition mk_datetime (y m d hh mm ss : Z) : datetime :=
  of_date (mk_date y m d) + ((hh * 60 + mm) * 60 + ss) * SECOND.

End DateTime.
Import DateTime.

(** ** The normalisation of the contents *)

Module Utf8.

Definition REPLACEMENT_CHARACTER : N := 65533%N.

Definition is_continuation (b : N) : bool := (N.land b 192 =? 128)%N.

Definition code_length (b : N) : nat :=
  if (b <? 128)%N then 1
  else if (b <? 194)%N then 0
  else if (b <? 224)%N then 2
  else if (b <? 240)%N then 3
  else if (b <? 245)%N then 4
  else 0.

Definition low6 (b : N) : N := N.land b 63.

Fixpoint continuation_run (s : list N) : nat :=
  match s with
  | b :: s' => if is_continuation b then S (continuation_run s') else 0
  | [] => 0
  end.

(** One step of the decoder: the code point read at the head of [s] and the
    number of bytes it takes; an ill-formed sequence gives U+FFFD. *)
Definition decode_one (s : list N) : N * nat :=
  match s with
  | [] => (REPLACEMENT_CHARACTER, 1%nat)
  | b0 :: rest =>
      match code_length b0, rest with
      | 1%nat, _ => (b0, 1%nat)
      | 2%nat, b1 :: _ =>
          if is_continuation b1
          then ((N.shiftl (N.land b0 31) 6 + low6 b1)%N, 2%nat)
          else (REPLACEMENT_CHARACTER, 1%nat)
      | 3%nat, b1 :: b2 :: _ =>
          if is_continuation b1 && is_continuation b2
             && negb ((b0 =? 224)%N && (b1 <? 160)%N)
          then ((N.shiftl (N.land b0 15) 12 + N.shiftl (low6 b1) 6
                 + low6 b2)%N, 3%nat)
          else (REPLACEMENT_CHARACTER,
                if is_continuation b1 then 2%nat else 1%nat)
      | 4%nat, b1 :: b2 :: b3 :: _ =>
          if is_continuation b1 && is_continuation b2 && is_continuation b3
             && negb ((b0 =? 240)%N && (b1 <? 144)%N)
             && negb ((b0 =? 244)%N && (143 <? b1)%N)
          then ((N.shiftl (N.land b0 7) 18 + N.shiftl (low6 b1) 12
                 + N.shiftl (low6 b2) 6 + low6 b3)%N, 4%nat)
          else (REPLACEMENT_CHARACTER,
                if is_continuation b1
                then (if is_continuation b2 then 3%nat else 2%nat)
                else 1%nat)
      | O, _ => (REPLACEMENT_CHARACTER, 1%nat)
      | _, _ => (REPLACEMENT_CHARACTER, S (continuation_run rest))
      end
  end.

Fixpoint decode_loop (fuel : nat) (s : list N) : list N :=
  match fuel, s with
  | _, [] => []
  | O, _ => []
  | S fuel', _ =>
      let '(c, n) := decode_one s in c :: decode_loop fuel' (skipn n s)
  end.

(** A decoder for [bytes.decode('utf-8', 'replace')], after the one of
    CPython 2.7 (which lets the surrogates through); every step takes at
    least one byte, so the length of the input is fuel enough. *)
Definition decode_replace (bytes : list byte) : list N :=
  let s := map Byte.to_N bytes in decode_loop (List.length s) s.

End Utf8.

Module Ascii7.

(** What the [xmlcharrefreplace] handler writes for a code point. *)
Definition xmlcharref (c : N) : string :=
  ("&#" ++ NilEmpty.string_of_uint (N.to_uint c) ++ ";")%string.

Definition encode_char (c : N) : string :=
  if (c <? 128)%N then String (ascii_of_N c) EmptyString else xmlcharref c.

(** [u.encode('ascii', 'xmlcharrefreplace')]. *)
Fixpoint encode_xmlcharrefreplace (u : list N) : string :=
  match u with
  | [] => EmptyString
  | c :: u' => (encode_char c ++ encode_xmlcharrefreplace u')%string
  end.

Definition is_ascii_char (a : ascii) : bool := (N_of_ascii a <? 128)%N.

Fixpoint is_ascii (s : string) : bool :=
  match s with
  | EmptyString => true
  | String a s' => is_ascii_char a && is_ascii s'
  end.

End Ascii7.

(** ** The table and the session *)

Module Snapshot.

Record t := mk {
  snapshot_id : Z;
  timestamp : datetime;
  hostname : string;
  title : string;
  contents : string
}.

(** The columns of the [UniqueConstraint]. *)
Definition key (r : t) : datetime * string * string :=
  (timestamp r, hostname r, title r).

Definition key_eqb (k1 k2 : datetime * string * string) : bool :=
  let '(t1, h1, n1) := k1 in
  let '(t2, h2, n2) := k2 in
  (t1 =? t2) && String.eqb h1 h2 && String.eqb n1 n2.

End Snapshot.

Inductive exn :=
| IntegrityError
| DuplicateSnapshotError (timestamp : datetime) (hostname title : string)
| NoResultFound
| MultipleResultsFound.

Inductive result (A : Type) :=
| Ok (a : A)
| Raise (e : exn).
Arguments Ok {A} a.
Arguments Raise {A} e.

Definition Session := list Snapshot.t.

(** A computation on the session that returns or raises. *)
Definition M (A : Type) := Session -> result A * Session.

Definition ret {A} (a : A) : M A := fun s => (Ok a, s).

Definition raise {A} (e : exn) : M A := fun s => (Raise e, s).

Definition bind {A B} (m : M A) (k : A -> M B) : M B :=
  fun s =>
    match m s with
    | (Ok a, s') => k a s'
    | (Raise e, s') => (Raise e, s')
    end.

Definition try_except {A} (m : M A) (handler : exn -> M A) : M A :=
  fun s =>
    match m s with
    | (Ok a, s') => (Ok a, s')
    | (Raise e, s') => handler e s'
    end.

Notation "x <- m ;; k" := (bind m (fun x => k))
  (at level 61, m at next level, right associativity).
Notation "m ;;; k" := (bind m (fun _ => k))
  (at level 61, right associativity).

Module Orm.

(** [session.query(Snapshot)]: the rows. *)
Definition query : M (list Snapshot.t) := fun s => (Ok s, s).

(** The identity SQLite gives a new row: one more than the largest. *)
Definition next_id (s : Session) : Z :=
  Z.succ (fold_right Z.max 0 (map Snapshot.snapshot_id s)).

(** [session.add(Snapshot(...))] followed by [session.flush()]: the INSERT
    of the pending row, refused by the unique constraint when a row with the
    same (timestamp, hostname, title) is there. *)
Definition add_flush (timestamp : datetime) (hostname title contents : string)
  : M unit :=
  fun s =>
    if existsb
         (fun r => Snapshot.key_eqb (Snapshot.key r)
                     (timestamp, hostname, title)) s
    then (Raise IntegrityError, s)
    else (Ok tt,
          s ++ [Snapshot.mk (next_id s) timestamp hostname title contents]).

(** [query.filter(criterion).delete()]. *)
Definition delete (criterion : Snapshot.t -> bool) : M unit :=
  fun s => (Ok tt, filter (fun r => negb (criterion r)) s).

(** [query.one()]. *)
Definition one {A} (rows : list A) : M A :=
  match rows with
  | [] => raise NoResultFound
  | [r] => ret r
  | _ :: _ :: _ => raise MultipleResultsFound
  end.

(** ORDER BY: a stable sort. *)
Fixpoint insert {A} (leb : A -> A -> bool) (x : A) (l : list A) : list A :=
  match l with
  | [] => [x]
  | y :: l' => if leb x y then x :: l else y :: insert leb x l'
  end.

Definition order_by {A} (leb : A -> A -> bool) (l : list A) : list A :=
  fold_right (insert leb) [] l.

(** DISTINCT. *)
Definition distinct {A} (eq_dec : forall x y : A, {x = y} + {x <> y})
  (l : list A) : list A := nodup eq_dec l.

End Orm.

(** Python's [sorted(set(xs))] on integers (dates and datetimes). *)
Definition py_set (xs : list Z) : list Z := nodup Z.eq_dec xs.
Definition py_sorted (xs : list Z) : list Z := Orm.order_by Z.leb xs.

(** ** The snapshot store: class [Database] *)

Module Database.

Section WithDecoder.

(** [bytes.decode('utf-8', 'replace')]. *)
Variable decode_utf8_replace : list byte -> list N.

(** The clock injected as [datetime_now] is read once, by the sweep;
    [datetime_now] below is what that call returns. *)
Definition _clean_old_snapshots (datetime_now : datetime) : M unit :=
  let oldest_allowed_timestamp := datetime_now - timedelta_days 14 in
  Orm.delete (fun r => Snapshot.timestamp r <? oldest_allowed_timestamp).

Definition add_snapshot (datetime_now timestamp : datetime)
  (hostname title : string) (csv_contents : list byte) : M unit :=
  let cleaned_csv_contents :=
    Ascii7.encode_xmlcharrefreplace (decode_utf8_replace csv_contents) in
  try_except
    (Orm.add_flush timestamp hostname title cleaned_csv_contents)
    (fun e =>
       match e with
       | IntegrityError =>
           raise (DuplicateSnapshotError timestamp hostname title)
       | _ => raise e
       end) ;;;
  _clean_old_snapshots datetime_now.

End WithDecoder.

Definition get_all_days : M (list date) :=
  rows <- Orm.query ;;
  let q := Orm.distinct Z.eq_dec (map Snapshot.timestamp rows) in
  ret (py_sorted (py_set (map to_date q))).

(** [day + datetime.timedelta(days=1)] on a date. *)
Definition date_add (day : date) (delta : timedelta) : date :=
  day + delta / DAY.

Definition get_timestamps (day : date) : M (list datetime) :=
  rows <- Orm.query ;;
  let q := filter (fun r => of_date day <=? Snapshot.timestamp r) rows in
  let q :=
    filter
      (fun r =>
         Snapshot.timestamp r <? of_date (date_add day (timedelta_days 1)))
      q in
  let q :=
    Orm.order_by
      (fun a b => Snapshot.timestamp a <=? Snapshot.timestamp b) q in
  let q := Orm.distinct Z.eq_dec (map Snapshot.timestamp q) in
  ret (py_sorted (py_set (map replace_second_microsecond_0 q))).

(** ORDER BY hostname ASC, title ASC: byte-wise comparison of the
    strings. *)
Definition hostname_title_leb (a b : Snapshot.t) : bool :=
  match String.compare (Snapshot.hostname a) (Snapshot.hostname b) with
  | Lt => true
  | Eq => String.leb (Snapshot.title a) (Snapshot.title b)
  | Gt => false
  end.

Definition get_snapshot_info_at_time (timestamp : datetime)
  : M (list (string * string)) :=
  rows <- Orm.query ;;
  let q := filter (fun r => timestamp <=? Snapshot.timestamp r) rows in
  let q :=
    filter
      (fun r => Snapshot.timestamp r <? timestamp + timedelta_seconds 60)
      q in
  let q := Orm.order_by hostname_title_leb q in
  ret (map (fun snapshot =>
              (Snapshot.hostname snapshot, Snapshot.title snapshot)) q).

Definition get_snapshot_contents (timestamp : datetime)
  (hostname title : string) : M string :=
  rows <- Orm.query ;;
  let q := filter (fun r => timestamp <=? Snapshot.timestamp r) rows in
  let q :=
    filter
      (fun r => Snapshot.timestamp r <? timestamp + timedelta_seconds 60)
      q in
  let q :=
    filter
      (fun r => String.eqb (Snapshot.hostname r) hostname
                && String.eqb (Snapshot.title r) title)
      q in
  snapshot <- Orm.one q ;;
  ret (Snapshot.contents snapshot).

End Database.

(** ** Calls into the store and their unit of work *)

Inductive call :=
| Add_snapshot (datetime_now timestamp : datetime) (hostname title : string)
    (csv_contents : list byte)
| Get_all_days
| Get_timestamps (day : date)
| Get_snapshot_info_at_time (timestamp : datetime)
| Get_snapshot_contents (timestamp : datetime) (hostname title : string).

Inductive value :=
| Nothing
| Days (days : list date)
| Timestamps (timestamps : list datetime)
| Infos (infos : list (string * string))
| Contents (contents : string).

(** [session.commit()] when the handler returns, [session.rollback()] when
    it raises. *)
Definition unit_of_work {A} (m : M A) : M A :=
  fun s =>
    match m s with
    | (Ok a, s') => (Ok a, s')
    | (Raise e, _) => (Raise e, s)
    end.

Definition is_read (c : call) : bool :=
  match c with
  | Add_snapshot _ _ _ _ _ => false
  | _ => true
  end.

Section App.

Variable decode_utf8_replace : list byte -> list N.

Definition handle (c : call) : M value :=
  match c with
  | Add_snapshot datetime_now timestamp hostname title csv_contents =>
      Database.add_snapshot decode_utf8_replace
        datetime_now timestamp hostname title csv_contents ;;;
      ret Nothing
  | Get_all_days =>
      days <- Database.get_all_days ;; ret (Days days)
  | Get_timestamps day =>
      timestamps <- Database.get_timestamps day ;;
      ret (Timestamps timestamps)
  | Get_snapshot_info_at_time timestamp =>
      infos <- Database.get_snapshot_info_at_time timestamp ;;
      ret (Infos infos)
  | Get_snapshot_contents timestamp hostname title =>
      contents <- Database.get_snapshot_contents timestamp hostname title ;;
      ret (Contents contents)
  end.

Definition step (c : call) (s : Session) : Session :=
  snd (unit_of_work (handle c) s).

(** A sequence of calls, each in its own unit of work; the states of the
    store are what calls make of the empty table, [run cs []]. *)
Definition run (cs : list call) (s : Session) : Session :=
  fold_left (fun s c => step c s) cs s.

End App.

(** ** Vocabulary of the properties *)

(** The half-open 60-second window that starts at [start]. *)
Definition in_window (start : datetime) (r : Snapshot.t) : Prop :=
  start <= Snapshot.timestamp r < start + 60 * SECOND.

Definition in_window_dec (start : datetime) (r : Snapshot.t)
  : {in_window start r} + {~ in_window start r}.
Proof.
  unfold in_window.
  destruct (Z_le_dec start (Snapshot.timestamp r)); [ | right; tauto ].
  destruct (Z_lt_dec (Snapshot.timestamp r) (start + 60 * SECOND));
    [ left; tauto | right; tauto ].
Defined.

(** [r] is what [getContents(start, h, n)] looks for. *)
Definition matches (start : datetime) (h n : string) (r : Snapshot.t) : Prop :=
  in_window start r /\ Snapshot.hostname r = h /\ Snapshot.title r = n.

Definition matches_dec (start : datetime) (h n : string) (r : Snapshot.t)
  : {matches start h n r} + {~ matches start h n r}.
Proof.
  unfold matches, in_window.
  destruct (Z_le_dec start (Snapshot.timestamp r));
    [ | right; tauto ].
  destruct (Z_lt_dec (Snapshot.timestamp r) (start + 60 * SECOND));
    [ | right; tauto ].
  destruct (string_dec (Snapshot.hostname r) h); [ | right; tauto ].
  destruct (string_dec (Snapshot.title r) n); [ left; tauto | right; tauto ].
Defined.

(** How many rows of [s] satisfy a decidable property. *)
Definition count {P : Snapshot.t -> Prop}
  (dec : forall r, {P r} + {~ P r}) (s : Session) : nat :=
  List.length (filter (fun r => if dec r then true else false) s).

Definition count_matching (start : datetime) (h n : string) (s : Session)
  : nat := count (matches_dec start h n) s.

(** [r] carries exactly the triple (t, h, n). *)
Definition has_key (t : datetime) (h n : string) (r : Snapshot.t) : Prop :=
  Snapshot.key r = (t, h, n).

Definition has_key_dec (t : datetime) (h n : string) (r : Snapshot.t)
  : {has_key t h n r} + {~ has_key t h n r}.
Proof.
  unfold has_key. repeat decide equality; apply ascii_dec || apply Z.eq_dec.
Defined.

(** No two rows with the same (timestamp, hostname, title). *)
Definition unique_keys (s : Session) : Prop := NoDup (map Snapshot.key s).

(** No two rows with the same identity. *)
Definition unique_ids (s : Session) : Prop :=
  NoDup (map Snapshot.snapshot_id s).

(** Every row holds ASCII only. *)
Definition ascii_only (s : Session) : Prop :=
  Forall (fun r => Ascii7.is_ascii (Snapshot.contents r) = true) s.

(** [m] is [t] with seconds and microseconds set to zero. *)
Definition minute_of (t m : datetime) : Prop :=
  m / MINUTE = t / MINUTE /\ second m = 0 /\ microsecond m = 0.

(** What [listAt] shows of a row. *)
Definition info (r : Snapshot.t) : string * string :=
  (Snapshot.hostname r, Snapshot.title r).

(** The row that a successful [add_snapshot] inserts into [s]. *)
Definition inserted (s : Session) (t : datetime) (h n contents : string)
  : Snapshot.t := Snapshot.mk (Orm.next_id s) t h n contents.

(** What the sweep keeps at clock reading [now]. *)
Definition kept (now : datetime) (r : Snapshot.t) : bool :=
  negb (Snapshot.timestamp r <? now - timedelta_days 14).

(** The normalised form of raw contents: decoded as UTF-8 with replacement,
    then encoded to ASCII with numeric character references. *)
Definition normalised (decode : list byte -> list N) (bytes : list byte)
  : string := Ascii7.encode_xmlcharrefreplace (decode bytes).

(** Byte-wise order on strings, and the order of (hostname, title) pairs:
    by hostname, then by title. *)
Definition str_lt : string -> string -> Prop := String_as_OT.lt.

Definition pair_le (p q : string * string) : Prop :=
  str_lt (fst p) (fst q)
  \/ (fst p = fst q /\ (str_lt (snd p) (snd q) \/ snd p = snd q)).

(** ** Data of the test suite *)

Module TestData.

(** [setUp]: the clock reads 2013-09-21 01:02:03. *)
Definition datetime_now : datetime := mk_datetime 2013 9 21 1 2 3.

Definition ONE_MINUTE : timedelta := MINUTE.
Definition ONE_DAY : timedelta := DAY.

Definition hello_world : list byte := list_byte_of_string "hello world!".

(** The four bytes [\xf0\x9f\x98\x88] of U+1F608. *)
Definition smiling_imp : list byte := [xf0; x9f; x98; x88].

(** [_add_snapshot] of the tests, under the clock reading [now]. *)
Definition _add_snapshot (now timestamp : datetime) (hostname title : string)
  : call := Add_snapshot now timestamp hostname title hello_world.

(** Two rows on other keys: another host now, the same host a minute ago. *)
Definition two_rows : Session :=
  run Utf8.decode_replace
    [ _add_snapshot datetime_now datetime_now "otherhost" "some stuff";
      _add_snapshot datetime_now (datetime_now - ONE_MINUTE)
        "myhost" "some stuff" ] [].

(** [test_clean_old_snapshots] before the clock moves. *)
Definition two_hosts : Session :=
  run Utf8.decode_replace
    [ _add_snapshot datetime_now datetime_now "myhost" "some stuff";
      _add_snapshot datetime_now datetime_now "otherhost" "some stuff" ] [].

(** The same host and title twice within a minute, 30 seconds apart. *)
Definition half_a_minute_apart : Session :=
  run Utf8.decode_replace
    [ _add_snapshot datetime_now datetime_now "myhost" "some stuff";
      _add_snapshot datetime_now (datetime_now + 30 * SECOND)
        "myhost" "some stuff" ] [].

(** One row 30 seconds after [datetime_now]. *)
Definition half_a_minute_later : Session :=
  run Utf8.decode_replace
    [ _add_snapshot datetime_now (datetime_now + 30 * SECOND)
        "myhost" "some stuff" ] [].

(** Snapshots at 01:02:03 and 01:02:59 of the same day. *)
Definition same_minute : Session :=
  run Utf8.decode_replace
    [ _add_snapshot datetime_now (mk_datetime 2013 9 21 1 2 3)
        "myhost" "some stuff";
      _add_snapshot datetime_now (mk_datetime 2013 9 21 1 2 59)
        "myhost" "some stuff" ] [].

End TestData.

(** ** The handler of [/<date>/<time>/] *)

Module RequestHandler.

(** [collections.defaultdict(list)] from hostnames to lists of titles: its
    items, each key once, in the order the keys were first used. *)
Definition defaultdict := list (string * list string).

(** [data_map[hostname]]; [None] for a key that has no item. *)
Fixpoint getitem (data_map : defaultdict) (hostname : string)
  : option (list string) :=
  match data_map with
  | [] => None
  | (k, titles) :: rest =>
      if String.eqb k hostname then Some titles else getitem rest hostname
  end.

(** [data_map[hostname].append(title)]: a key that has no item gets the
    empty list first. *)
Fixpoint append (data_map : defaultdict) (hostname title : string)
  : defaultdict :=
  match data_map with
  | [] => [(hostname, [title])]
  | (k, titles) :: rest =>
      if String.eqb k hostname then (k, titles ++ [title]) :: rest
      else (k, titles) :: append rest hostname title
  end.

(** [list_snapshots] from the parsed [timestamp] to the context given to
    the template: the timestamp and [dict(data_map)]. *)
Definition list_snapshots (timestamp : datetime)
  : M (datetime * defaultdict) :=
  snapshot_infos <- Database.get_snapshot_info_at_time timestamp ;;
  let data_map :=
    fold_left
      (fun data_map '(hostname, title) => append data_map hostname title)
      snapshot_infos [] in
  ret (timestamp, data_map).

End RequestHandler.

(** ** What the reads return *)

Definition days_of (s : Session) : list date :=
  match fst (Database.get_all_days s) with Ok l => l | Raise _ => [] end.

Definition timestamps_on (day : date) (s : Session) : list datetime :=
  match fst (Database.get_timestamps day s) with
  | Ok l => l
  | Raise _ => []
  end.

Definition infos_at (t : datetime) (s : Session) : list (string * string) :=
  match fst (Database.get_snapshot_info_at_time t s) with
  | Ok l => l
  | Raise _ => []
  end.

Definition info_eq_dec (p q : string * string) : {p = q} + {p <> q}.
Proof. decide equality; apply string_dec. Defined.

(** The rows of [s] in the window from [t] that come from [h]. *)
Definition from_host (t : datetime) (h : string) (r : Snapshot.t) : bool :=
  (if in_window_dec t r then true else false)
  && String.eqb (Snapshot.hostname r) h.

Definition str_le (a b : string) : Prop := str_lt a b \/ a = b.

(** The day of an instant, as an interval. *)
Definition on_day (day : date) (t : datetime) : Prop :=
  of_date day <= t < of_date (day + 1).

(** * Properties *)

(** ** Time arithmetic *)

Lemma replace_second_microsecond_0_eq (t : datetime) :
  replace_second_microsecond_0 t = MINUTE * (t / MINUTE).
Proof.
  unfold replace_second_microsecond_0, second, microsecond, MINUTE, SECOND.
  assert (E : t / (60 * 1000000) = t / 1000000 / 60)
    by (rewrite (Z.mul_comm 60), Z.div_div by lia; reflexivity).
  rewrite E.
  pose proof (Z.div_mod t 1000000 ltac:(lia)) as H1.
  pose proof (Z.div_mod (t / 1000000) 60 ltac:(lia)) as H2.
  lia.
Qed.

Lemma minute_of_replace (t : datetime) :
  minute_of t (replace_second_microsecond_0 t).
Proof.
  rewrite replace_second_microsecond_0_eq.
  unfold minute_of, second, microsecond, MINUTE, SECOND.
  change (60 * 1000000) with 60000000.
  repeat split.
  - rewrite Z.mul_comm, Z.div_mul by lia. reflexivity.
  - replace (60000000 * (t / 60000000))
      with ((60 * (t / 60000000)) * 1000000) by lia.
    rewrite Z.div_mul by lia.
    rewrite Z.mul_comm, Z.mod_mul by lia. reflexivity.
  - replace (60000000 * (t / 60000000))
      with ((60 * (t / 60000000)) * 1000000) by lia.
    apply Z.mod_mul. lia.
Qed.

Lemma minute_of_unique (t m : datetime) :
  minute_of t m -> m = replace_second_microsecond_0 t.
Proof.
  rewrite replace_second_microsecond_0_eq.
  unfold minute_of, second, microsecond, MINUTE, SECOND.
  change (60 * 1000000) with 60000000.
  intros (Hq & Hs & Hu).
  rewrite <- Hq.
  pose proof (Z.div_mod m 60000000 ltac:(lia)) as Hm.
  assert (Hr : m mod 60000000 = 0).
  { change 60000000 with (1000000 * 60).
    rewrite Z.rem_mul_r by lia. rewrite Hs, Hu. reflexivity. }
  lia.
Qed.

Lemma minute_of_iff (t m : datetime) :
  minute_of t m <-> m = replace_second_microsecond_0 t.
Proof.
  split; [ apply minute_of_unique | intros ->; apply minute_of_replace ].
Qed.

Lemma date_add_one_day (day : date) :
  Database.date_add day (timedelta_days 1) = day + 1.
Proof.
  unfold Database.date_add, timedelta_days.
  rewrite Z.mul_1_l, Z.div_same by (unfold DAY, SECOND; lia). reflexivity.
Qed.

(** ** Sorting and duplicates *)

Section Sorting.

Context {A : Type} (leb : A -> A -> bool).

Lemma insert_perm (x : A) (l : list A) :
  Permutation (Orm.insert leb x l) (x :: l).
Proof.
  induction l as [ | y l IH ]; simpl.
  - reflexivity.
  - destruct (leb x y).
    + reflexivity.
    + rewrite IH. apply perm_swap.
Qed.

Lemma order_by_perm (l : list A) : Permutation (Orm.order_by leb l) l.
Proof.
  induction l as [ | x l IH ]; simpl.
  - constructor.
  - rewrite insert_perm. constructor. exact IH.
Qed.

Lemma order_by_In (l : list A) (x : A) :
  In x (Orm.order_by leb l) <-> In x l.
Proof.
  split; apply Permutation_in;
    [ | symmetry ]; apply order_by_perm.
Qed.

Hypothesis leb_total : forall x y, leb x y = true \/ leb y x = true.

Let le (x y : A) : Prop := leb x y = true.

Lemma insert_sorted (x : A) (l : list A) :
  Sorted le l -> Sorted le (Orm.insert leb x l).
Proof.
  induction l as [ | y l IH ]; simpl; intros Hs.
  - repeat constructor.
  - destruct (leb x y) eqn:E.
    + constructor; [ exact Hs | constructor; exact E ].
    + assert (Hyx : le y x) by (destruct (leb_total x y); congruence).
      inversion Hs as [ | ? ? Hs' Hhd ]; subst.
      constructor; [ apply IH; exact Hs' | ].
      destruct l as [ | z l ]; simpl.
      * constructor. exact Hyx.
      * destruct (leb x z); constructor;
          [ exact Hyx | inversion Hhd; assumption ].
Qed.

Lemma order_by_sorted (l : list A) : Sorted le (Orm.order_by leb l).
Proof.
  induction l as [ | x l IH ]; simpl.
  - constructor.
  - apply insert_sorted. exact IH.
Qed.

End Sorting.

Lemma sorted_map {A B} (f : A -> B) (R : A -> A -> Prop)
  (Q : B -> B -> Prop) (l : list A) :
  (forall x y, R x y -> Q (f x) (f y)) ->
  Sorted R l -> Sorted Q (map f l).
Proof.
  intros HRQ. induction 1 as [ | x l Hs IH Hhd ]; simpl.
  - constructor.
  - constructor; [ exact IH | ].
    destruct Hhd; simpl; constructor. apply HRQ. assumption.
Qed.

Lemma strictly_sorted (l : list Z) :
  NoDup l -> StronglySorted Z.le l -> StronglySorted Z.lt l.
Proof.
  induction 2 as [ | x l Hs IH Hall ].
  - constructor.
  - inversion H as [ | ? ? Hnotin Hnd ]; subst.
    constructor; [ apply IH; exact Hnd | ].
    rewrite Forall_forall in *. intros y Hy.
    specialize (Hall y Hy).
    assert (x <> y) by (intros ->; contradiction).
    lia.
Qed.

(** [sorted(set(xs))] is strictly ascending and has the elements of [xs]. *)
Lemma py_sorted_set_spec (xs : list Z) :
  StronglySorted Z.lt (py_sorted (py_set xs))
  /\ forall x, In x (py_sorted (py_set xs)) <-> In x xs.
Proof.
  unfold py_sorted, py_set. split.
  - apply strictly_sorted.
    + eapply Permutation_NoDup.
      * symmetry. apply order_by_perm.
      * apply NoDup_nodup.
    + apply Sorted_StronglySorted; [ intros x y z; lia | ].
      rewrite <- (map_id (Orm.order_by _ _)).
      apply sorted_map with (R := fun x y => (x <=? y) = true).
      * intros a b Hab. apply Z.leb_le. exact Hab.
      * apply order_by_sorted. intros a b.
        destruct (Z.leb_spec a b); [ left; reflexivity | right ].
        apply Z.leb_le. lia.
  - intros x. rewrite order_by_In. apply nodup_In.
Qed.

(** ** The normalised contents are ASCII *)

Lemma is_ascii_app (a b : string) :
  Ascii7.is_ascii (a ++ b)%string = Ascii7.is_ascii a && Ascii7.is_ascii b.
Proof.
  induction a as [ | c a IH ]; simpl.
  - reflexivity.
  - rewrite IH. apply andb_assoc.
Qed.

Lemma is_ascii_decimal (d : Decimal.uint) :
  Ascii7.is_ascii (NilEmpty.string_of_uint d) = true.
Proof.
  induction d; simpl; auto.
Qed.

Lemma is_ascii_encode_char (c : N) :
  Ascii7.is_ascii (Ascii7.encode_char c) = true.
Proof.
  unfold Ascii7.encode_char.
  destruct (N.ltb_spec c 128) as [Hlt | Hge].
  - simpl. unfold Ascii7.is_ascii_char.
    rewrite N_ascii_embedding by lia.
    apply andb_true_intro. split; [ apply N.ltb_lt; exact Hlt | reflexivity ].
  - unfold Ascii7.xmlcharref.
    rewrite !is_ascii_app, is_ascii_decimal. reflexivity.
Qed.

Lemma is_ascii_encode (u : list N) :
  Ascii7.is_ascii (Ascii7.encode_xmlcharrefreplace u) = true.
Proof.
  induction u as [ | c u IH ]; simpl.
  - reflexivity.
  - rewrite is_ascii_app, is_ascii_encode_char, IH. reflexivity.
Qed.

(** Every character of an ASCII string has a code point below 128. *)
Lemma is_ascii_code_points (s : string) :
  Ascii7.is_ascii s = true <->
  Forall (fun a => (N_of_ascii a < 128)%N) (list_ascii_of_string s).
Proof.
  induction s as [ | a s IH ]; simpl.
  - split; [ constructor | reflexivity ].
  - rewrite andb_true_iff, IH. unfold Ascii7.is_ascii_char.
    rewrite N.ltb_lt. split.
    + intros [Ha Hs]. constructor; assumption.
    + intros H. inversion H; subst. split; assumption.
Qed.

(** ** The order of ORDER BY hostname, title *)

Lemma str_lt_compare (a b : string) : String.compare a b = Lt <-> str_lt a b.
Proof. apply String_as_OT.cmp_lt. Qed.

Lemma str_leb_le (a b : string) :
  String.leb a b = true -> str_lt a b \/ a = b.
Proof.
  unfold String.leb. destruct (String.compare a b) eqn:E; intros H.
  - right. apply String.compare_eq_iff. exact E.
  - left. apply str_lt_compare. exact E.
  - discriminate.
Qed.

Lemma hostname_title_leb_total (a b : Snapshot.t) :
  Database.hostname_title_leb a b = true
  \/ Database.hostname_title_leb b a = true.
Proof.
  unfold Database.hostname_title_leb.
  rewrite (String.compare_antisym (Snapshot.hostname b)).
  destruct (String.compare (Snapshot.hostname a) (Snapshot.hostname b));
    simpl; auto.
  apply String.leb_total.
Qed.

Lemma hostname_title_leb_pair_le (a b : Snapshot.t) :
  Database.hostname_title_leb a b = true -> pair_le (info a) (info b).
Proof.
  unfold Database.hostname_title_leb, pair_le, info. simpl.
  destruct (String.compare (Snapshot.hostname a) (Snapshot.hostname b))
    eqn:E; intros H.
  - right. split.
    + apply String.compare_eq_iff. exact E.
    + apply str_leb_le. exact H.
  - left. apply str_lt_compare. exact E.
  - discriminate.
Qed.

Lemma pair_le_trans (p q r : string * string) :
  pair_le p q -> pair_le q r -> pair_le p r.
Proof.
  unfold pair_le, str_lt.
  intros [H1 | [E1 H1]] [H2 | [E2 H2]].
  - left. eapply String_as_OT.lt_trans; eassumption.
  - left. rewrite <- E2. exact H1.
  - left. rewrite E1. exact H2.
  - right. split; [ congruence | ].
    destruct H1 as [H1 | H1], H2 as [H2 | H2].
    + left. eapply String_as_OT.lt_trans; eassumption.
    + left. rewrite <- H2. exact H1.
    + left. rewrite H1. exact H2.
    + right. congruence.
Qed.

(** [str_lt] is a strict order, so [pair_le] orders pairs: two pairs below
    each other are equal. *)
Lemma pair_le_antisym (p q : string * string) :
  pair_le p q -> pair_le q p -> p = q.
Proof.
  assert (Hirr : forall a, ~ str_lt a a)
    by (intros a H; exact (String_as_OT.lt_not_eq _ _ H eq_refl)).
  assert (Hasym : forall a b, str_lt a b -> str_lt b a -> False)
    by (intros a b H1 H2; exact (Hirr a (String_as_OT.lt_trans _ _ _ H1 H2))).
  destruct p as [h1 n1], q as [h2 n2]. unfold pair_le. simpl.
  intros [H1 | [E1 H1]] [H2 | [E2 H2]]; subst.
  - exfalso. eauto.
  - exfalso. eapply Hirr; eauto.
  - exfalso. eapply Hirr; eauto.
  - destruct H1 as [H1 | H1], H2 as [H2 | H2]; subst; try reflexivity.
    exfalso. eauto.
Qed.

(** ** The write path *)

Lemma key_eqb_eq (k1 k2 : datetime * string * string) :
  Snapshot.key_eqb k1 k2 = true <-> k1 = k2.
Proof.
  destruct k1 as [[t1 h1] n1], k2 as [[t2 h2] n2]. simpl.
  rewrite !andb_true_iff, Z.eqb_eq, !String.eqb_eq.
  split; [ intros [[-> ->] ->]; reflexivity | intros E; inversion E; auto ].
Qed.

Lemma conflict_iff (s : Session) (t : datetime) (h n : string) :
  existsb (fun r => Snapshot.key_eqb (Snapshot.key r) (t, h, n)) s = true
  <-> exists r, In r s /\ has_key t h n r.
Proof.
  rewrite existsb_exists. unfold has_key.
  split; intros (r & Hin & Hk); exists r; split; auto;
    apply key_eqb_eq; exact Hk.
Qed.

Lemma no_conflict_iff (s : Session) (t : datetime) (h n : string) :
  existsb (fun r => Snapshot.key_eqb (Snapshot.key r) (t, h, n)) s = false
  <-> forall r, In r s -> ~ has_key t h n r.
Proof.
  rewrite <- not_true_iff_false, conflict_iff. split.
  - intros H r Hin Hk. apply H. exists r. auto.
  - intros H (r & Hin & Hk). exact (H r Hin Hk).
Qed.

Lemma kept_iff (now : datetime) (r : Snapshot.t) :
  kept now r = true <-> now - timedelta_days 14 <= Snapshot.timestamp r.
Proof.
  unfold kept. rewrite negb_true_iff, Z.ltb_ge. reflexivity.
Qed.

Section Store.

Variable decode : list byte -> list N.

(** [add_snapshot] in one equation: the duplicate is refused and nothing
    moves; otherwise the row is appended and the sweep runs. *)
Lemma add_snapshot_eq (now t : datetime) (h n : string) (bytes : list byte)
  (s : Session) :
  Database.add_snapshot decode now t h n bytes s =
  if existsb (fun r => Snapshot.key_eqb (Snapshot.key r) (t, h, n)) s
  then (Raise (DuplicateSnapshotError t h n), s)
  else (Ok tt, filter (kept now) (s ++ [inserted s t h n (normalised decode bytes)])).
Proof.
  unfold Database.add_snapshot, Database._clean_old_snapshots, bind,
    try_except, Orm.add_flush, Orm.delete, raise.
  destruct (existsb _ s); reflexivity.
Qed.

Lemma add_snapshot_ok (now t : datetime) (h n : string) (bytes : list byte)
  (s s' : Session) :
  Database.add_snapshot decode now t h n bytes s = (Ok tt, s') ->
  (forall r, In r s -> ~ has_key t h n r)
  /\ s' = filter (kept now) (s ++ [inserted s t h n (normalised decode bytes)]).
Proof.
  rewrite add_snapshot_eq.
  destruct (existsb _ s) eqn:E; [ discriminate | ].
  intros H. inversion H. split; [ | reflexivity ].
  apply no_conflict_iff. exact E.
Qed.

(** A call either leaves the session as it is, or is a successful add. *)
Lemma step_cases (c : call) (s : Session) :
  step decode c s = s
  \/ exists now t h n bytes,
       c = Add_snapshot now t h n bytes
       /\ (forall r, In r s -> ~ has_key t h n r)
       /\ step decode c s
          = filter (kept now) (s ++ [inserted s t h n (normalised decode bytes)]).
Proof.
  destruct c as [now t h n bytes | | day | t | t h n];
    try (left; reflexivity).
  - unfold step, unit_of_work, handle, bind.
    rewrite add_snapshot_eq.
    destruct (existsb _ s) eqn:E.
    + left. reflexivity.
    + right. exists now, t, h, n, bytes. simpl.
      repeat split. apply no_conflict_iff. exact E.
  - left. unfold step, unit_of_work, handle, bind,
      Database.get_snapshot_contents, bind, Orm.query, Orm.one.
    destruct (filter _ _) as [ | r [ | r' l ] ]; reflexivity.
Qed.

End Store.


(** ** The read path *)

Lemma filter_filter {A} (f g : A -> bool) (l : list A) :
  filter g (filter f l) = filter (fun x => f x && g x) l.
Proof.
  induction l as [ | x l IH ]; simpl.
  - reflexivity.
  - destruct (f x); simpl; [ destruct (g x) | ]; rewrite IH; reflexivity.
Qed.

(** The two timestamp filters of the window reads select the window. *)
Lemma window_filter (t : datetime) (s : Session) :
  filter (fun r => Snapshot.timestamp r <? t + timedelta_seconds 60)
    (filter (fun r => t <=? Snapshot.timestamp r) s)
  = filter (fun r => if in_window_dec t r then true else false) s.
Proof.
  rewrite filter_filter. apply filter_ext. intros r.
  unfold timedelta_seconds.
  destruct (in_window_dec t r) as [W | W]; unfold in_window in W.
  - apply andb_true_intro. rewrite Z.leb_le, Z.ltb_lt. exact W.
  - apply not_true_iff_false. rewrite andb_true_iff, Z.leb_le, Z.ltb_lt.
    exact W.
Qed.

(** The three filters of [get_snapshot_contents] select the matches. *)
Lemma matches_filter (t : datetime) (h n : string) (s : Session) :
  filter (fun r => String.eqb (Snapshot.hostname r) h
                   && String.eqb (Snapshot.title r) n)
    (filter (fun r => Snapshot.timestamp r <? t + timedelta_seconds 60)
       (filter (fun r => t <=? Snapshot.timestamp r) s))
  = filter (fun r => if matches_dec t h n r then true else false) s.
Proof.
  rewrite window_filter, filter_filter. apply filter_ext. intros r.
  destruct (matches_dec t h n r) as [M | M]; unfold matches in M.
  - destruct M as (W & Hh & Hn).
    destruct (in_window_dec t r); [ | contradiction ].
    simpl. apply andb_true_intro. rewrite !String.eqb_eq. auto.
  - apply not_true_iff_false.
    rewrite !andb_true_iff, !String.eqb_eq.
    destruct (in_window_dec t r); [ | intros [? _]; discriminate ].
    intros (_ & Hh & Hn). apply M. auto.
Qed.

Lemma get_snapshot_contents_eq (t : datetime) (h n : string) (s : Session) :
  Database.get_snapshot_contents t h n s =
  match filter (fun r => if matches_dec t h n r then true else false) s with
  | [] => (Raise NoResultFound, s)
  | [r] => (Ok (Snapshot.contents r), s)
  | _ :: _ :: _ => (Raise MultipleResultsFound, s)
  end.
Proof.
  unfold Database.get_snapshot_contents, bind, Orm.query, Orm.one.
  rewrite matches_filter.
  destruct (filter _ s) as [ | r [ | r' l ] ]; reflexivity.
Qed.

Lemma In_matching (t : datetime) (h n : string) (s : Session)
  (r : Snapshot.t) :
  In r (filter (fun r => if matches_dec t h n r then true else false) s)
  <-> In r s /\ matches t h n r.
Proof.
  rewrite filter_In.
  destruct (matches_dec t h n r); intuition discriminate.
Qed.

Lemma count_zero {P : Snapshot.t -> Prop} (dec : forall r, {P r} + {~ P r})
  (s : Session) :
  count dec s = 0%nat <-> forall r, In r s -> ~ P r.
Proof.
  unfold count. rewrite length_zero_iff_nil. split.
  - intros H r Hin HP.
    assert (Hr : In r (filter (fun r => if dec r then true else false) s)).
    { apply filter_In. split; [ exact Hin | ].
      destruct (dec r); [ reflexivity | contradiction ]. }
    rewrite H in Hr. exact Hr.
  - intros H. induction s as [ | x s IH ]; simpl; [ reflexivity | ].
    destruct (dec x) as [HP | _].
    + exfalso. exact (H x (or_introl eq_refl) HP).
    + apply IH. intros r Hin. apply H. right. exact Hin.
Qed.

Lemma filter_none {A} (f : A -> bool) (l : list A) :
  (forall x, In x l -> f x = false) -> filter f l = [].
Proof.
  induction l as [ | x l IH ]; simpl; intros H.
  - reflexivity.
  - rewrite (H x (or_introl eq_refl)). apply IH.
    intros y Hy. apply H. right. exact Hy.
Qed.

Lemma In_kept (now : datetime) (s : Session) (r : Snapshot.t) :
  In r (filter (kept now) s)
  <-> In r s /\ now - timedelta_days 14 <= Snapshot.timestamp r.
Proof. rewrite filter_In, kept_iff. reflexivity. Qed.

Lemma get_snapshot_contents_state (t : datetime) (h n : string)
  (s : Session) :
  snd (Database.get_snapshot_contents t h n s) = s.
Proof.
  rewrite get_snapshot_contents_eq.
  destruct (filter _ s) as [ | r [ | r' l ] ]; reflexivity.
Qed.

Lemma get_snapshot_contents_none (t : datetime) (h n : string)
  (s : Session) :
  Database.get_snapshot_contents t h n s = (Raise NoResultFound, s)
  <-> forall r, In r s -> ~ matches t h n r.
Proof.
  rewrite get_snapshot_contents_eq.
  rewrite <- (count_zero (matches_dec t h n)). unfold count.
  destruct (filter _ s) as [ | r [ | r' l ] ]; simpl;
    split; intros H; try reflexivity; discriminate.
Qed.

(** ** The claims *)

(** C5. [get_snapshot_contents] enforces exactly one match: with [k] the
    number of rows whose hostname and title are the given ones and whose
    timestamp lies in the 60-second window from [t], it raises
    [NoResultFound] when [k = 0], returns the contents of the matching row
    when [k = 1], raises [MultipleResultsFound] when [k > 1]; it returns
    contents only when [k = 1]; and the session is left as it was. *)
Theorem get_snapshot_contents_exactly_one
  (s : Session) (t : datetime) (h n : string) :
  let k := count_matching t h n s in
  let got := Database.get_snapshot_contents t h n s in
  (k = 0%nat -> got = (Raise NoResultFound, s))
  /\ (k = 1%nat ->
      exists r, In r s /\ matches t h n r
                /\ got = (Ok (Snapshot.contents r), s))
  /\ ((1 < k)%nat -> got = (Raise MultipleResultsFound, s))
  /\ (forall c, fst got = Ok c ->
      k = 1%nat
      /\ exists r, In r s /\ matches t h n r /\ Snapshot.contents r = c)
  /\ snd got = s.
Proof.
  intros k got. subst k got.
  unfold count_matching, count.
  rewrite get_snapshot_contents_eq.
  pose proof (In_matching t h n s) as Hin.
  destruct (filter _ s) as [ | r [ | r' l ] ]; simpl.
  - repeat split; intros; try discriminate; try lia.
  - assert (Hr : In r s /\ matches t h n r)
      by (apply Hin; left; reflexivity).
    repeat split; intros; try discriminate; try lia.
    + exists r. tauto.
    + exists r. inversion H. tauto.
  - repeat split; intros; try discriminate; try lia.
Qed.

Section WritePath.

Variable decode : list byte -> list N.

(** C2. A duplicate is refused atomically: when a row with the triple
    (t, h, n) is in the store, [add_snapshot] raises
    [DuplicateSnapshotError] with that triple, whatever the contents and the
    clock, and the session is exactly what it was: nothing inserted, no
    sweep, every read answers as before. *)
Theorem duplicate_add_rejected
  (s : Session) (now t : datetime) (h n : string) (bytes : list byte) :
  (exists r, In r s /\ has_key t h n r) ->
  Database.add_snapshot decode now t h n bytes s
  = (Raise (DuplicateSnapshotError t h n), s)
  /\ step decode (Add_snapshot now t h n bytes) s = s
  /\ forall t' h' n',
       Database.get_snapshot_contents t' h' n'
         (snd (Database.add_snapshot decode now t h n bytes s))
       = Database.get_snapshot_contents t' h' n' s.
Proof.
  intros Hdup. apply conflict_iff in Hdup.
  assert (E : Database.add_snapshot decode now t h n bytes s
              = (Raise (DuplicateSnapshotError t h n), s))
    by (rewrite add_snapshot_eq, Hdup; reflexivity).
  repeat split.
  - exact E.
  - unfold step, unit_of_work, handle, bind. rewrite E. reflexivity.
  - intros. rewrite E. reflexivity.
Qed.

(** C1. Round trip: after a successful [add_snapshot] of [bytes] at
    (t, h, n), with [t] not older than the clock reading minus 14 days and no
    row of the store before the call (those are the other snapshots) with
    hostname [h], title [n] and a timestamp in the window [t, t + 60 s),
    [get_snapshot_contents t h n] returns the normalised form of [bytes]. *)
Theorem add_then_get_contents
  (s s' : Session) (now t : datetime) (h n : string) (bytes : list byte) :
  Database.add_snapshot decode now t h n bytes s = (Ok tt, s') ->
  now - timedelta_days 14 <= t ->
  (forall r, In r s -> ~ matches t h n r) ->
  Database.get_snapshot_contents t h n s'
  = (Ok (normalised decode bytes), s').
Proof.
  intros Hadd Hfresh Hother.
  apply add_snapshot_ok in Hadd. destruct Hadd as [_ ->].
  rewrite get_snapshot_contents_eq.
  rewrite filter_app, filter_app. simpl.
  assert (Hk : kept now (inserted s t h n (normalised decode bytes)) = true)
    by (apply kept_iff; exact Hfresh).
  rewrite Hk. simpl.
  destruct (matches_dec t h n (inserted s t h n (normalised decode bytes)))
    as [_ | M].
  - rewrite filter_none; [ reflexivity | ].
    intros r Hr. apply In_kept in Hr.
    destruct (matches_dec t h n r) as [M | _]; [ | reflexivity ].
    exfalso. exact (Hother r (proj1 Hr) M).
  - exfalso. apply M. unfold matches, in_window, inserted, SECOND. simpl.
    split; [ lia | split; reflexivity ].
Qed.

(** C4. The retention sweep: after a successful [add_snapshot] at clock
    reading [now], no row older than [now] minus 14 days is left (the row
    just inserted included), every row at or after that instant, old or just
    inserted, is still there as it was, nothing else is; and the four reads
    leave every session, whatever its rows, as it is. *)
Theorem sweep_after_add
  (s s' : Session) (now t : datetime) (h n : string) (bytes : list byte) :
  Database.add_snapshot decode now t h n bytes s = (Ok tt, s') ->
  let oldest := now - timedelta_days 14 in
  let new := inserted s t h n (normalised decode bytes) in
  (forall r, Snapshot.timestamp r < oldest -> ~ In r s')
  /\ (forall r, In r (s ++ [new]) -> oldest <= Snapshot.timestamp r ->
                In r s')
  /\ (forall r, In r s' -> In r (s ++ [new]))
  /\ (forall s0 : Session,
        snd (Database.get_all_days s0) = s0
        /\ (forall day, snd (Database.get_timestamps day s0) = s0)
        /\ (forall t0, snd (Database.get_snapshot_info_at_time t0 s0) = s0)
        /\ (forall t0 h0 n0,
              snd (Database.get_snapshot_contents t0 h0 n0 s0) = s0)
        /\ (forall c, is_read c = true -> step decode c s0 = s0)).
Proof.
  intros Hadd oldest new. subst oldest new.
  apply add_snapshot_ok in Hadd. destruct Hadd as [_ ->].
  repeat split.
  - intros r Hold Hin. apply In_kept in Hin. lia.
  - intros r Hin Hkeep. apply In_kept. auto.
  - intros r Hin. apply In_kept in Hin. tauto.
  - intros t0 h0 n0. apply get_snapshot_contents_state.
  - intros c Hc. destruct (step_cases decode c s0) as [E | E]; [ exact E | ].
    destruct E as (? & ? & ? & ? & ? & -> & _). discriminate.
Qed.

(** C10, as amended.  An [add_snapshot] at (t, h, n) with [t] older than the
    clock reading minus 14 days and no row with that triple succeeds, and the
    sweep of the same call deletes the row it inserted: the session is the
    old one without its rows older than the horizon, and no row has the
    triple.  [get_snapshot_contents t h n] raises [NoResultFound] exactly
    when no surviving row has hostname [h], title [n] and a timestamp in
    [t, t + 60 s). *)
Theorem add_older_than_horizon
  (s : Session) (now t : datetime) (h n : string) (bytes : list byte) :
  t < now - timedelta_days 14 ->
  (forall r, In r s -> ~ has_key t h n r) ->
  exists s',
    Database.add_snapshot decode now t h n bytes s = (Ok tt, s')
    /\ s' = filter (kept now) s
    /\ (forall r, In r s' -> ~ has_key t h n r)
    /\ (Database.get_snapshot_contents t h n s' = (Raise NoResultFound, s')
        <-> forall r, In r s -> now - timedelta_days 14 <= Snapshot.timestamp r
                      -> ~ matches t h n r).
Proof.
  intros Hold Hfree.
  exists (filter (kept now) s).
  assert (Hk : kept now (inserted s t h n (normalised decode bytes)) = false).
  { apply not_true_iff_false. rewrite kept_iff.
    unfold inserted. cbn [Snapshot.timestamp]. lia. }
  repeat split.
  - rewrite add_snapshot_eq.
    apply no_conflict_iff in Hfree. rewrite Hfree.
    rewrite filter_app. simpl. rewrite Hk, app_nil_r. reflexivity.
  - intros r Hin. apply In_kept in Hin. apply Hfree. tauto.
  - intros Hget r Hin Hkeep.
    apply (proj1 (get_snapshot_contents_none t h n _) Hget).
    apply In_kept. auto.
  - intros Hnone. apply get_snapshot_contents_none.
    intros r Hin. apply In_kept in Hin. apply Hnone; tauto.
Qed.

End WritePath.

(** ** Invariants of the store *)

Lemma NoDup_snoc {A} (l : list A) (x : A) :
  NoDup l -> ~ In x l -> NoDup (l ++ [x]).
Proof.
  intros Hl Hx. apply Permutation_NoDup with (l := x :: l).
  - apply Permutation_cons_append.
  - constructor; assumption.
Qed.

(** Deleting rows keeps a column free of duplicates. *)
Lemma delete_keeps_NoDup {B} (column : Snapshot.t -> B)
  (keep : Snapshot.t -> bool) (s : Session) :
  NoDup (map column s) -> NoDup (map column (filter keep s)).
Proof.
  induction s as [ | x s IH ]; simpl; intros H.
  - constructor.
  - inversion H as [ | ? ? Hx Hs ]; subst.
    destruct (keep x); simpl; [ constructor | ]; auto.
    intros Hin. apply Hx.
    apply in_map_iff in Hin. destruct Hin as (y & E & Hy).
    apply filter_In in Hy. apply in_map_iff. exists y. tauto.
Qed.

Lemma NoDup_map_eq {A B} (f : A -> B) (l : list A) (a b : A) :
  NoDup (map f l) -> In a l -> In b l -> f a = f b -> a = b.
Proof.
  induction l as [ | x l IH ]; simpl; intros H Ha Hb E; [ contradiction | ].
  inversion H as [ | ? ? Hx Hl ]; subst.
  destruct Ha as [-> | Ha], Hb as [-> | Hb].
  - reflexivity.
  - exfalso. apply Hx. rewrite E. apply in_map. exact Hb.
  - exfalso. apply Hx. rewrite <- E. apply in_map. exact Ha.
  - apply IH; assumption.
Qed.

Lemma id_below_next (s : Session) (r : Snapshot.t) :
  In r s -> Snapshot.snapshot_id r < Orm.next_id s.
Proof.
  unfold Orm.next_id. induction s as [ | x s IH ]; simpl; intros H.
  - contradiction.
  - destruct H as [-> | H]; [ lia | ]. specialize (IH H). lia.
Qed.

Lemma count_key_le_1 (t : datetime) (h n : string) (s : Session) :
  unique_keys s -> (count (has_key_dec t h n) s <= 1)%nat.
Proof.
  unfold unique_keys, count.
  induction s as [ | x s IH ]; simpl; intros H; [ lia | ].
  inversion H as [ | ? ? Hx Hs ]; subst.
  destruct (has_key_dec t h n x) as [Kx | _]; [ | apply IH; exact Hs ].
  simpl. rewrite filter_none; [ simpl; lia | ].
  intros r Hr. destruct (has_key_dec t h n r) as [Kr | _]; [ | reflexivity ].
  exfalso. apply Hx. unfold has_key in Kx, Kr. rewrite Kx, <- Kr.
  apply in_map. exact Hr.
Qed.

Section Invariants.

Variable decode : list byte -> list N.

Lemma run_invariant (P : Session -> Prop) :
  (forall c s, P s -> P (step decode c s)) ->
  forall cs s, P s -> P (run decode cs s).
Proof.
  intros Hstep. unfold run.
  induction cs as [ | c cs IH ]; simpl; intros s Hs.
  - exact Hs.
  - apply IH. apply Hstep. exact Hs.
Qed.

Lemma step_unique_keys (c : call) (s : Session) :
  unique_keys s -> unique_keys (step decode c s).
Proof.
  intros H. destruct (step_cases decode c s) as [-> | E]; [ exact H | ].
  destruct E as (now & t & h & n & bytes & _ & Hfree & ->).
  unfold unique_keys. apply delete_keeps_NoDup.
  rewrite map_app. simpl. apply NoDup_snoc; [ exact H | ].
  intros Hin. apply in_map_iff in Hin. destruct Hin as (r & E & Hr).
  exact (Hfree r Hr E).
Qed.

Lemma step_unique_ids (c : call) (s : Session) :
  unique_ids s -> unique_ids (step decode c s).
Proof.
  intros H. destruct (step_cases decode c s) as [-> | E]; [ exact H | ].
  destruct E as (now & t & h & n & bytes & _ & _ & ->).
  unfold unique_ids. apply delete_keeps_NoDup.
  rewrite map_app. simpl. apply NoDup_snoc; [ exact H | ].
  intros Hin. apply in_map_iff in Hin. destruct Hin as (r & E & Hr).
  apply id_below_next in Hr. lia.
Qed.

Lemma step_ascii_only (c : call) (s : Session) :
  ascii_only s -> ascii_only (step decode c s).
Proof.
  intros H. destruct (step_cases decode c s) as [-> | E]; [ exact H | ].
  destruct E as (now & t & h & n & bytes & _ & _ & ->).
  unfold ascii_only in *. rewrite Forall_forall in *.
  intros r Hr. apply filter_In in Hr. destruct Hr as [Hr _].
  apply in_app_or in Hr. destruct Hr as [Hr | [<- | []]].
  - apply H. exact Hr.
  - apply is_ascii_encode.
Qed.

(** A row of the session after a call is a row of the session before it,
    or the row the call inserted. *)
Lemma step_rows (c : call) (s : Session) (r : Snapshot.t) :
  In r (step decode c s) ->
  In r s
  \/ exists now t h n bytes,
       c = Add_snapshot now t h n bytes
       /\ r = inserted s t h n (normalised decode bytes).
Proof.
  destruct (step_cases decode c s) as [-> | E]; [ auto | ].
  destruct E as (now & t & h & n & bytes & -> & _ & ->).
  intros Hr. apply filter_In in Hr. destruct Hr as [Hr _].
  apply in_app_or in Hr. destruct Hr as [Hr | [<- | []]]; [ auto | ].
  right. exists now, t, h, n, bytes. auto.
Qed.

(** C3. Uniqueness: in every state that a sequence of calls makes of the
    empty store, no two rows carry the same (timestamp, hostname, title). *)
Theorem reachable_unique_keys (cs : list call) :
  unique_keys (run decode cs []).
Proof.
  apply run_invariant.
  - apply step_unique_keys.
  - constructor.
Qed.

(** C9. In every state that a sequence of calls makes of the empty store the
    contents of every row are ASCII only (every character below 128), every
    row inserted by a call holds the normalised form of the bytes written,
    and a call changes no row: a row of the state after the call with the
    identity of a row before it is that very row. *)
Theorem reachable_ascii_only_immutable (cs : list call) :
  let s := run decode cs [] in
  ascii_only s
  /\ (forall r,
        In r s ->
        Forall (fun a => (N_of_ascii a < 128)%N)
          (list_ascii_of_string (Snapshot.contents r)))
  /\ (forall c r',
        In r' (step decode c s) ->
        In r' s
        \/ exists now t h n bytes,
             c = Add_snapshot now t h n bytes
             /\ r' = inserted s t h n (normalised decode bytes))
  /\ (forall c r r',
        In r s -> In r' (step decode c s) ->
        Snapshot.snapshot_id r' = Snapshot.snapshot_id r ->
        r' = r).
Proof.
  intros s. subst s.
  assert (Hascii : ascii_only (run decode cs []))
    by (apply run_invariant; [ apply step_ascii_only | constructor ]).
  assert (Hids : unique_ids (run decode cs []))
    by (apply run_invariant; [ apply step_unique_ids | constructor ]).
  repeat split.
  - exact Hascii.
  - intros r Hr. apply is_ascii_code_points.
    unfold ascii_only in Hascii. rewrite Forall_forall in Hascii. auto.
  - intros c r'. apply step_rows.
  - intros c r r' Hr Hr' E.
    destruct (step_rows c _ r' Hr') as [Hold | Hnew].
    + apply (NoDup_map_eq Snapshot.snapshot_id _ r' r Hids); assumption.
    + destruct Hnew as (now & t & h & n & bytes & _ & ->).
      apply id_below_next in Hr. unfold inserted in E. simpl in E. lia.
Qed.

(** C6, as amended.  In every state that a sequence of calls makes of the
    empty store, at most one row carries a given (timestamp, hostname, title),
    and two rows that both match a [get_snapshot_contents] query and have the
    same timestamp are one row: several matches can only be rows of the same
    hostname and title at different instants of the window. *)
Theorem reachable_matches_differ_in_time
  (cs : list call) (t : datetime) (h n : string) :
  let s := run decode cs [] in
  (forall t0, (count (has_key_dec t0 h n) s <= 1)%nat)
  /\ (forall r1 r2,
        In r1 s -> In r2 s -> matches t h n r1 -> matches t h n r2 ->
        Snapshot.timestamp r1 = Snapshot.timestamp r2 -> r1 = r2).
Proof.
  intros s. subst s.
  pose proof (reachable_keys_aux := run_invariant unique_keys
                                      step_unique_keys cs [] (NoDup_nil _)).
  split.
  - intros t0. apply count_key_le_1. exact reachable_keys_aux.
  - intros r1 r2 H1 H2 (_ & Hh1 & Hn1) (_ & Hh2 & Hn2) Ht.
    apply (NoDup_map_eq Snapshot.key _ r1 r2 reachable_keys_aux H1 H2).
    unfold Snapshot.key. congruence.
Qed.

End Invariants.

(** ** The listings *)

(** C7. [get_timestamps day] returns, strictly ascending (so with no
    duplicate), exactly the timestamps, cut to the minute (seconds and
    microseconds zero), of the rows whose timestamp lies in
    [day 00:00:00, day+1 00:00:00); the session is left as it was. *)
Theorem get_timestamps_minutes (s : Session) (day : date) :
  exists l,
    Database.get_timestamps day s = (Ok l, s)
    /\ StronglySorted Z.lt l
    /\ forall m,
         In m l <->
         exists r,
           In r s
           /\ of_date day <= Snapshot.timestamp r < of_date (day + 1)
           /\ minute_of (Snapshot.timestamp r) m.
Proof.
  eexists. split; [ reflexivity | ].
  destruct (py_sorted_set_spec
              (map replace_second_microsecond_0
                 (Orm.distinct Z.eq_dec
                    (map Snapshot.timestamp
                       (Orm.order_by
                          (fun a b =>
                             Snapshot.timestamp a <=? Snapshot.timestamp b)
                          (filter
                             (fun r =>
                                Snapshot.timestamp r
                                <? of_date (Database.date_add day
                                              (timedelta_days 1)))
                             (filter
                                (fun r => of_date day <=? Snapshot.timestamp r)
                                s)))))))
    as [Hsorted Hin].
  split; [ exact Hsorted | ].
  intros m. rewrite Hin, in_map_iff. unfold Orm.distinct.
  rewrite date_add_one_day.
  split.
  - intros (ts & <- & Hts).
    apply nodup_In, in_map_iff in Hts. destruct Hts as (r & <- & Hr).
    apply order_by_In, filter_In in Hr. destruct Hr as [Hr Hlt].
    apply filter_In in Hr. destruct Hr as [Hr Hle].
    exists r. rewrite Z.leb_le in Hle. rewrite Z.ltb_lt in Hlt.
    repeat split; try assumption; apply minute_of_replace.
  - intros (r & Hr & [Hle Hlt] & Hm).
    exists (Snapshot.timestamp r). split.
    + symmetry. apply minute_of_unique. exact Hm.
    + apply nodup_In, in_map, order_by_In, filter_In.
      split; [ apply filter_In; split | ];
        [ exact Hr | apply Z.leb_le; exact Hle | apply Z.ltb_lt; exact Hlt ].
Qed.

(** C8. [get_snapshot_info_at_time t] returns the (hostname, title) pairs of
    exactly the rows whose timestamp lies in [t, t + 60 s), one pair per row
    (a permutation of them, duplicates kept), in ascending order of hostname
    and then title; the session is left as it was. *)
Theorem get_snapshot_info_at_time_sorted (s : Session) (t : datetime) :
  exists l,
    Database.get_snapshot_info_at_time t s = (Ok l, s)
    /\ StronglySorted pair_le l
    /\ Permutation l
         (map info
            (filter (fun r => if in_window_dec t r then true else false) s)).
Proof.
  eexists. split; [ reflexivity | ].
  rewrite window_filter.
  change (fun snapshot : Snapshot.t =>
            (Snapshot.hostname snapshot, Snapshot.title snapshot))
    with info.
  split.
  - apply Sorted_StronglySorted.
    + intros p q r. apply pair_le_trans.
    + apply sorted_map
        with (R := fun a b => Database.hostname_title_leb a b = true).
      * apply hostname_title_leb_pair_le.
      * apply order_by_sorted. apply hostname_title_leb_total.
  - apply Permutation_map. apply order_by_perm.
Qed.

(** ** The claims on the data of the test suite *)

Import TestData.

(** The store, run with the decoder [Utf8.decode_replace]. *)

(** [test_that_a_snapshot_with_non_ascii_data_gets_cleaned_when_added]. *)
Example non_ascii_data_gets_cleaned :
  normalised Utf8.decode_replace smiling_imp = "&#128520;"%string.
Proof. reflexivity. Qed.

(** [test_list_snapshots_at_time]. *)
Example list_snapshots_at_time :
  fst (Database.get_snapshot_info_at_time datetime_now
         (run Utf8.decode_replace
            [ _add_snapshot datetime_now datetime_now "myhost" "some stuff";
              _add_snapshot datetime_now datetime_now "otherhost" "some stuff";
              _add_snapshot datetime_now datetime_now "myhost" "other stuff";
              _add_snapshot datetime_now (datetime_now - ONE_MINUTE)
                "myhost" "some stuff" ] []))
  = Ok [ ("myhost", "other stuff"); ("myhost", "some stuff");
         ("otherhost", "some stuff") ]%string.
Proof. vm_compute. reflexivity. Qed.

(** Minute bucketing: 01:02:03 and 01:02:59 give the one entry 01:02:00. *)
Example minute_bucketing :
  fst (Database.get_timestamps (mk_date 2013 9 21) same_minute)
  = Ok [ mk_datetime 2013 9 21 1 2 0 ].
Proof. vm_compute. reflexivity. Qed.

(** Witness of C1: the four bytes of U+1F608 written next to two rows on
    other keys are read back as [&#128520;]. *)
Lemma add_then_get_contents_witness :
  let s' :=
    snd (Database.add_snapshot Utf8.decode_replace datetime_now datetime_now
           "myhost" "some stuff" smiling_imp two_rows) in
  Database.add_snapshot Utf8.decode_replace datetime_now datetime_now
    "myhost" "some stuff" smiling_imp two_rows = (Ok tt, s')
  /\ datetime_now - timedelta_days 14 <= datetime_now
  /\ count_matching datetime_now "myhost" "some stuff" two_rows = 0%nat
  /\ Database.get_snapshot_contents datetime_now "myhost" "some stuff" s'
     = (Ok "&#128520;"%string, s').
Proof.
  intros s'.
  assert (H1 : Database.add_snapshot Utf8.decode_replace datetime_now
                 datetime_now "myhost" "some stuff" smiling_imp two_rows
               = (Ok tt, s')) by (vm_compute; reflexivity).
  assert (H2 : datetime_now - timedelta_days 14 <= datetime_now)
    by (vm_compute; discriminate).
  assert (H3 : count_matching datetime_now "myhost" "some stuff" two_rows
               = 0%nat) by (vm_compute; reflexivity).
  split; [ exact H1 | split; [ exact H2 | split; [ exact H3 | ] ] ].
  exact (add_then_get_contents Utf8.decode_replace two_rows s'
           datetime_now datetime_now "myhost" "some stuff" smiling_imp
           H1 H2 (proj1 (count_zero _ _) H3)).
Defined.

(** Witness of C2: [test_no_duplicate_snapshots], the second add of the same
    triple, with other contents. *)
Lemma duplicate_add_rejected_witness :
  count (has_key_dec datetime_now "myhost" "some stuff") two_hosts = 1%nat
  /\ Database.add_snapshot Utf8.decode_replace
       (datetime_now + 100 * ONE_DAY) datetime_now "myhost" "some stuff"
       smiling_imp two_hosts
     = (Raise (DuplicateSnapshotError datetime_now "myhost" "some stuff"),
        two_hosts).
Proof.
  split; [ vm_compute; reflexivity | ].
  apply (duplicate_add_rejected Utf8.decode_replace two_hosts
           (datetime_now + 100 * ONE_DAY) datetime_now "myhost" "some stuff"
           smiling_imp).
  apply conflict_iff. vm_compute. reflexivity.
Defined.

(** Witness of C4: [test_clean_old_snapshots]; with the clock 100 days on,
    an add at the new instant leaves that row alone of three. *)
Lemma sweep_after_add_witness :
  let now := datetime_now + 100 * ONE_DAY in
  let s' :=
    snd (Database.add_snapshot Utf8.decode_replace now now
           "myhost" "some stuff" hello_world two_hosts) in
  Database.add_snapshot Utf8.decode_replace now now
    "myhost" "some stuff" hello_world two_hosts = (Ok tt, s')
  /\ List.length two_hosts = 2%nat
  /\ List.length s' = 1%nat
  /\ (forall r, Snapshot.timestamp r < now - timedelta_days 14 -> ~ In r s').
Proof.
  intros now s'.
  assert (H1 : Database.add_snapshot Utf8.decode_replace now now
                 "myhost" "some stuff" hello_world two_hosts = (Ok tt, s'))
    by (vm_compute; reflexivity).
  split; [ exact H1 | ].
  split; [ vm_compute; reflexivity | ].
  split; [ vm_compute; reflexivity | ].
  exact (proj1 (sweep_after_add Utf8.decode_replace two_hosts s' now now
                  "myhost" "some stuff" hello_world H1)).
Defined.

(** Counterexample to C6: two rows of the same hostname and title, 30
    seconds apart, in a state of the store with unique triples; both match
    the query at the first instant, which raises [MultipleResultsFound]. *)
Lemma ambiguous_in_window_counterexample :
  half_a_minute_apart
  = run Utf8.decode_replace
      [ Add_snapshot datetime_now datetime_now "myhost" "some stuff"
          hello_world;
        Add_snapshot datetime_now (datetime_now + 30 * SECOND)
          "myhost" "some stuff" hello_world ] []
  /\ unique_keys half_a_minute_apart
  /\ count_matching datetime_now "myhost" "some stuff" half_a_minute_apart
     = 2%nat
  /\ Database.get_snapshot_contents datetime_now "myhost" "some stuff"
       half_a_minute_apart
     = (Raise MultipleResultsFound, half_a_minute_apart).
Proof.
  split; [ reflexivity | ].
  split; [ | split; vm_compute; reflexivity ].
  unfold half_a_minute_apart.
  apply run_invariant; [ apply step_unique_keys | constructor ].
Qed.

(** Counterexample to C10: a row of the same hostname and title 30 seconds
    after [t] survives the sweep that deletes the row written at [t], and
    [get_snapshot_contents] at [t] returns its contents instead of raising
    [NoResultFound]. *)
Lemma self_purge_counterexample :
  let now := datetime_now + timedelta_days 14 + 10 * SECOND in
  let added :=
    Database.add_snapshot Utf8.decode_replace now datetime_now
      "myhost" "some stuff" smiling_imp half_a_minute_later in
  datetime_now < now - timedelta_days 14
  /\ count (has_key_dec datetime_now "myhost" "some stuff")
       half_a_minute_later = 0%nat
  /\ fst added = Ok tt
  /\ Database.get_snapshot_contents datetime_now "myhost" "some stuff"
       (snd added)
     = (Ok "hello world!"%string, snd added)
  /\ fst (Database.get_snapshot_contents datetime_now "myhost" "some stuff"
            (snd added))
     <> Raise NoResultFound.
Proof.
  intros now added.
  split; [ vm_compute; reflexivity | ].
  split; [ vm_compute; reflexivity | ].
  split; [ vm_compute; reflexivity | ].
  split; [ vm_compute; reflexivity | vm_compute; discriminate ].
Qed.

(** Witness of C10 as amended: written 100 days late into the empty store,
    the row is swept at once and the read raises [NoResultFound]. *)
Lemma add_older_than_horizon_witness :
  let now := datetime_now + 100 * ONE_DAY in
  datetime_now < now - timedelta_days 14
  /\ count (has_key_dec datetime_now "myhost" "some stuff") two_rows = 0%nat
  /\ exists s',
       Database.add_snapshot Utf8.decode_replace now datetime_now
         "myhost" "some stuff" hello_world two_rows = (Ok tt, s')
       /\ s' = filter (kept now) two_rows
       /\ (forall r, In r s' ->
                     ~ has_key datetime_now "myhost" "some stuff" r)
       /\ (Database.get_snapshot_contents datetime_now "myhost" "some stuff"
             s' = (Raise NoResultFound, s')
           <-> forall r, In r two_rows ->
                         now - timedelta_days 14 <= Snapshot.timestamp r ->
                         ~ matches datetime_now "myhost" "some stuff" r).
Proof.
  intros now.
  assert (H1 : datetime_now < now - timedelta_days 14)
    by (vm_compute; reflexivity).
  assert (H2 : count (has_key_dec datetime_now "myhost" "some stuff")
                 two_rows = 0%nat) by (vm_compute; reflexivity).
  split; [ exact H1 | split; [ exact H2 | ] ].
  exact (add_older_than_horizon Utf8.decode_replace two_rows now datetime_now
           "myhost" "some stuff" hello_world H1 (proj1 (count_zero _ _) H2)).
Defined.

(** * Further properties of the store *)

(** ** Days, minutes and windows *)

Lemma to_date_iff (t : datetime) (d : date) : to_date t = d <-> on_day d t.
Proof.
  unfold to_date, on_day, of_date, DAY, SECOND.
  change (86400 * 1000000) with 86400000000.
  pose proof (Z.div_mod t 86400000000 ltac:(lia)) as E.
  pose proof (Z.mod_pos_bound t 86400000000 ltac:(lia)) as B.
  split; intros H; lia.
Qed.

Lemma replace_window (t : datetime) :
  replace_second_microsecond_0 t <= t
  < replace_second_microsecond_0 t + 60 * SECOND.
Proof.
  rewrite replace_second_microsecond_0_eq. unfold MINUTE, SECOND.
  change (60 * 1000000) with 60000000.
  pose proof (Z.div_mod t 60000000 ltac:(lia)) as E.
  pose proof (Z.mod_pos_bound t 60000000 ltac:(lia)) as B.
  lia.
Qed.

Lemma to_date_replace (t : datetime) :
  to_date (replace_second_microsecond_0 t) = to_date t.
Proof.
  rewrite replace_second_microsecond_0_eq.
  unfold to_date, DAY, MINUTE, SECOND.
  change (60 * 1000000) with 60000000.
  change (86400 * 1000000) with (60000000 * 1440).
  rewrite <- Z.div_div by lia.
  rewrite (Z.mul_comm 60000000), Z.div_mul by lia.
  rewrite Z.div_div by lia. reflexivity.
Qed.

Lemma days_of_eq (s : Session) :
  Database.get_all_days s = (Ok (days_of s), s).
Proof. reflexivity. Qed.

Lemma In_days_of (s : Session) (d : date) :
  In d (days_of s) <->
  exists r, In r s /\ to_date (Snapshot.timestamp r) = d.
Proof.
  unfold days_of, Database.get_all_days, bind, Orm.query, ret,
    Orm.distinct. simpl.
  rewrite (proj2 (py_sorted_set_spec _)), in_map_iff. split.
  - intros (t & <- & Ht). apply nodup_In, in_map_iff in Ht.
    destruct Ht as (r & <- & Hr). exists r. auto.
  - intros (r & Hr & <-). exists (Snapshot.timestamp r).
    split; [ reflexivity | ]. apply nodup_In, in_map. exact Hr.
Qed.

Lemma timestamps_on_eq (day : date) (s : Session) :
  Database.get_timestamps day s = (Ok (timestamps_on day s), s).
Proof. reflexivity. Qed.

Lemma In_timestamps_on (day : date) (s : Session) (m : datetime) :
  In m (timestamps_on day s) <->
  exists r,
    In r s /\ on_day day (Snapshot.timestamp r)
    /\ m = replace_second_microsecond_0 (Snapshot.timestamp r).
Proof.
  unfold timestamps_on, Database.get_timestamps, bind, Orm.query, ret,
    Orm.distinct, on_day. simpl fst.
  rewrite (proj2 (py_sorted_set_spec _)), in_map_iff, date_add_one_day.
  split.
  - intros (t & <- & Ht). apply nodup_In, in_map_iff in Ht.
    destruct Ht as (r & <- & Hr).
    apply order_by_In, filter_In in Hr. destruct Hr as [Hr Hlt].
    apply filter_In in Hr. destruct Hr as [Hr Hle].
    rewrite Z.leb_le in Hle. rewrite Z.ltb_lt in Hlt.
    exists r. auto.
  - intros (r & Hr & [Hle Hlt] & ->). exists (Snapshot.timestamp r).
    split; [ reflexivity | ].
    apply nodup_In, in_map, order_by_In, filter_In.
    split; [ apply filter_In; split | ];
      [ exact Hr | apply Z.leb_le; exact Hle | apply Z.ltb_lt; exact Hlt ].
Qed.

Lemma infos_at_eq (t : datetime) (s : Session) :
  Database.get_snapshot_info_at_time t s = (Ok (infos_at t s), s)
  /\ infos_at t s
     = map info
         (Orm.order_by Database.hostname_title_leb
            (filter (fun r => if in_window_dec t r then true else false) s)).
Proof.
  split; [ reflexivity | ].
  unfold infos_at, Database.get_snapshot_info_at_time, bind, Orm.query, ret.
  simpl fst. rewrite window_filter. reflexivity.
Qed.

Lemma In_infos_at (t : datetime) (s : Session) (p : string * string) :
  In p (infos_at t s) <->
  exists r, In r s /\ in_window t r /\ info r = p.
Proof.
  rewrite (proj2 (infos_at_eq t s)), in_map_iff. split.
  - intros (r & <- & Hr). apply order_by_In, filter_In in Hr.
    destruct Hr as [Hr W]. exists r.
    destruct (in_window_dec t r); [ auto | discriminate ].
  - intros (r & Hr & W & <-). exists r. split; [ reflexivity | ].
    apply order_by_In, filter_In. split; [ exact Hr | ].
    destruct (in_window_dec t r); [ reflexivity | contradiction ].
Qed.

(** X1. [get_all_days] returns, strictly ascending (each day once), exactly
    the calendar days of the timestamps of the rows, and leaves the session
    as it was; it is empty exactly on the empty table. *)
Theorem get_all_days_ascending (s : Session) :
  Database.get_all_days s = (Ok (days_of s), s)
  /\ StronglySorted Z.lt (days_of s)
  /\ (forall d,
        In d (days_of s) <->
        exists r, In r s /\ to_date (Snapshot.timestamp r) = d)
  /\ (days_of s = [] <-> s = []).
Proof.
  split; [ reflexivity | ].
  split; [ apply (proj1 (py_sorted_set_spec _)) | ].
  split; [ apply In_days_of | ].
  split.
  - intros E. destruct s as [ | r s ]; [ reflexivity | ].
    assert (H : In (to_date (Snapshot.timestamp r)) (days_of (r :: s))).
    { apply In_days_of. exists r. split; [ left | ]; reflexivity. }
    rewrite E in H. contradiction.
  - intros ->. reflexivity.
Qed.

(** X2. The listings of days and of minutes agree: a day is listed by
    [get_all_days] exactly when [get_timestamps] of that day is not empty,
    and every minute that [get_timestamps day] lists lies on [day]. *)
Theorem days_and_minutes_agree (s : Session) (day : date) :
  (In day (days_of s) <-> timestamps_on day s <> [])
  /\ (forall m, In m (timestamps_on day s) -> on_day day m).
Proof.
  split; [ split | ].
  - intros H. apply In_days_of in H. destruct H as (r & Hr & E).
    apply to_date_iff in E.
    assert (Hm : In (replace_second_microsecond_0 (Snapshot.timestamp r))
                   (timestamps_on day s))
      by (apply In_timestamps_on; exists r; auto).
    intros E0. rewrite E0 in Hm. contradiction.
  - intros H. destruct (timestamps_on day s) as [ | m l ] eqn:E;
      [ contradiction | ].
    assert (Hm : In m (timestamps_on day s)) by (rewrite E; left; reflexivity).
    apply In_timestamps_on in Hm. destruct Hm as (r & Hr & Hd & _).
    apply In_days_of. exists r. split; [ exact Hr | ].
    apply to_date_iff. exact Hd.
  - intros m Hm. apply In_timestamps_on in Hm.
    destruct Hm as (r & _ & Hd & ->).
    apply to_date_iff. rewrite to_date_replace. apply to_date_iff. exact Hd.
Qed.

(** X3. From the minutes to the snapshots: the window read at a minute that
    [get_timestamps day] lists is never empty, and every row of that day is
    found that way, its (hostname, title) listed by
    [get_snapshot_info_at_time] at the minute of its timestamp, which
    [get_timestamps day] lists. *)
Theorem minutes_lead_to_snapshots (s : Session) (day : date) :
  (forall m, In m (timestamps_on day s) -> infos_at m s <> [])
  /\ (forall r,
        In r s -> on_day day (Snapshot.timestamp r) ->
        let m := replace_second_microsecond_0 (Snapshot.timestamp r) in
        In m (timestamps_on day s) /\ In (info r) (infos_at m s)).
Proof.
  assert (Hfound : forall r, In r s ->
            In (info r)
              (infos_at (replace_second_microsecond_0 (Snapshot.timestamp r))
                 s)).
  { intros r Hr. apply In_infos_at. exists r.
    split; [ exact Hr | split; [ apply replace_window | reflexivity ] ]. }
  split.
  - intros m Hm E. apply In_timestamps_on in Hm.
    destruct Hm as (r & Hr & _ & ->).
    specialize (Hfound r Hr). rewrite E in Hfound. contradiction.
  - intros r Hr Hd m. subst m. split; [ | apply Hfound; exact Hr ].
    apply In_timestamps_on. exists r. auto.
Qed.

(** ** Listing and fetching *)

Lemma count_listed (t : datetime) (h n : string) (s : Session) :
  count_occ info_eq_dec (infos_at t s) (h, n) = count_matching t h n s.
Proof.
  rewrite (proj2 (infos_at_eq t s)).
  rewrite (proj1 (Permutation_count_occ info_eq_dec _ _)
             (Permutation_map info (order_by_perm _ _)) (h, n)).
  unfold count_matching, count.
  induction s as [ | x s IH ]; [ reflexivity | ].
  cbn [filter].
  destruct (matches_dec t h n x) as [M | M].
  - destruct (in_window_dec t x) as [W | W]; [ | exfalso; apply W, M ].
    cbn [map Datatypes.length].
    rewrite count_occ_cons_eq, IH; [ reflexivity | ].
    destruct M as (_ & <- & <-). reflexivity.
  - destruct (in_window_dec t x) as [W | W]; [ | exact IH ].
    cbn [map]. rewrite count_occ_cons_neq; [ exact IH | ].
    intros E. apply M. inversion E. split; auto.
Qed.

(** X4. Listing and fetching agree: [get_snapshot_contents t h n] returns
    contents exactly when [get_snapshot_info_at_time t] lists the pair
    (h, n) once, raises [NoResultFound] exactly when the pair is not listed,
    and [MultipleResultsFound] exactly when it is listed more than once. *)
Theorem listed_once_is_fetched (s : Session) (t : datetime) (h n : string) :
  let k := count_occ info_eq_dec (infos_at t s) (h, n) in
  let got := fst (Database.get_snapshot_contents t h n s) in
  (k = 0%nat <-> got = Raise NoResultFound)
  /\ (k = 1%nat <-> exists c, got = Ok c)
  /\ ((1 < k)%nat <-> got = Raise MultipleResultsFound).
Proof.
  intros k got. subst k got.
  rewrite count_listed. unfold count_matching, count.
  rewrite get_snapshot_contents_eq.
  destruct (filter _ s) as [ | r [ | r' l ] ]; simpl;
    repeat split; intros H; try reflexivity; try discriminate; try lia;
    try (exists (Snapshot.contents r); reflexivity);
    destruct H; discriminate.
Qed.

(** ** Outcomes of a write *)

Section Writes.

Variable decode : list byte -> list N.



(** X7. Writes elsewhere leave a read alone: a successful [add_snapshot]
    whose row does not match the query (t, h, n), under a clock reading that
    keeps [t] within the 14 days, does not change what
    [get_snapshot_contents t h n] returns or raises. *)
Theorem add_elsewhere_keeps_read
  (s s' : Session) (now t' : datetime) (h' n' : string) (bytes : list byte)
  (t : datetime) (h n : string) :
  Database.add_snapshot decode now t' h' n' bytes s = (Ok tt, s') ->
  now - timedelta_days 14 <= t ->
  ~ (t <= t' < t + 60 * SECOND /\ h' = h /\ n' = n) ->
  fst (Database.get_snapshot_contents t h n s')
  = fst (Database.get_snapshot_contents t h n s).
Proof.
  intros Hadd Hfresh Hother.
  apply add_snapshot_ok in Hadd. destruct Hadd as [_ ->].
  rewrite !get_snapshot_contents_eq.
  assert (E : filter (fun r => if matches_dec t h n r then true else false)
                (filter (kept now)
                   (s ++ [inserted s t' h' n' (normalised decode bytes)]))
              = filter (fun r => if matches_dec t h n r then true else false)
                  s).
  { rewrite filter_filter, filter_app. simpl.
    destruct (matches_dec t h n
                (inserted s t' h' n' (normalised decode bytes)))
      as [M | _].
    - exfalso. apply Hother. exact M.
    - rewrite andb_false_r, app_nil_r.
      apply filter_ext_in. intros r _.
      destruct (matches_dec t h n r) as [M | _];
        [ | apply andb_false_r ].
      rewrite andb_true_r. apply kept_iff.
      destruct M as ((Hle & _) & _). lia. }
  rewrite E.
  destruct (filter _ s) as [ | r [ | r' l ] ]; reflexivity.
Qed.

End Writes.

(** X8. Sweeps compose: a sweep at clock reading [now1] followed by one at
    [now2] leaves what a single sweep at the later of the two leaves, in
    either order; so sweeping twice at one reading is sweeping once. *)
Theorem sweeps_compose (now1 now2 : datetime) (s : Session) :
  let sweep now s := snd (Database._clean_old_snapshots now s) in
  sweep now2 (sweep now1 s) = sweep (Z.max now1 now2) s
  /\ sweep now2 (sweep now1 s) = sweep now1 (sweep now2 s)
  /\ sweep now1 (sweep now1 s) = sweep now1 s.
Proof.
  intros sweep. subst sweep.
  unfold Database._clean_old_snapshots, Orm.delete. simpl.
  rewrite !filter_filter.
  repeat split; apply filter_ext; intros r;
    destruct (Z.ltb_spec (Snapshot.timestamp r) (now1 - timedelta_days 14));
    destruct (Z.ltb_spec (Snapshot.timestamp r) (now2 - timedelta_days 14));
    try destruct (Z.ltb_spec (Snapshot.timestamp r)
                    (Z.max now1 now2 - timedelta_days 14));
    simpl; try reflexivity; lia.
Qed.

(** ** Where the rows come from *)

Section Provenance.

Variable decode : list byte -> list N.

Lemma run_snoc (cs : list call) (c : call) (s : Session) :
  run decode (cs ++ [c]) s = step decode c (run decode cs s).
Proof. unfold run. rewrite fold_left_app. reflexivity. Qed.

(** X9. The store invents nothing: every row of a state that a sequence of
    calls makes of the empty store was written by an [add_snapshot] of that
    sequence, with the row's timestamp, hostname and title; its contents are
    the normalised form of the bytes of that call, and the clock of that
    call read no more than 14 days after the row's timestamp. *)
Theorem rows_come_from_adds (cs : list call) :
  Forall
    (fun r =>
       exists now bytes,
         In (Add_snapshot now (Snapshot.timestamp r) (Snapshot.hostname r)
               (Snapshot.title r) bytes) cs
         /\ Snapshot.contents r = normalised decode bytes
         /\ now - timedelta_days 14 <= Snapshot.timestamp r)
    (run decode cs []).
Proof.
  induction cs as [ | c cs IH ] using rev_ind.
  - constructor.
  - rewrite run_snoc. rewrite Forall_forall in *. intros r Hr.
    assert (Hold : In r (run decode cs []) ->
              exists now bytes,
                In (Add_snapshot now (Snapshot.timestamp r)
                      (Snapshot.hostname r) (Snapshot.title r) bytes)
                  (cs ++ [c])
                /\ Snapshot.contents r = normalised decode bytes
                /\ now - timedelta_days 14 <= Snapshot.timestamp r).
    { intros Hin. destruct (IH r Hin) as (now & bytes & Hc & Hrest).
      exists now, bytes. split; [ apply in_or_app; left; exact Hc | ].
      exact Hrest. }
    destruct (step_cases decode c (run decode cs [])) as [E | E].
    + rewrite E in Hr. apply Hold. exact Hr.
    + destruct E as (now & t & h & n & bytes & -> & _ & E).
      rewrite E in Hr. apply In_kept in Hr. destruct Hr as [Hr Hkept].
      apply in_app_or in Hr. destruct Hr as [Hr | [<- | []]].
      * apply Hold. exact Hr.
      * exists now, bytes. simpl.
        split; [ apply in_or_app; right; left; reflexivity | ].
        split; [ reflexivity | exact Hkept ].
Qed.

End Provenance.

(** ** The normalisation on ASCII and on single code points *)

(** X10. ASCII passes through: when every byte written is below 128 and the
    decoder reads these bytes as their own code points (as UTF-8 does), the
    contents stored are the bytes written, unchanged. *)
Theorem ascii_contents_stored_verbatim
  (decode : list byte -> list N) (bytes : list byte) :
  Forall (fun b => (Byte.to_N b < 128)%N) bytes ->
  decode bytes = map Byte.to_N bytes ->
  normalised decode bytes = string_of_list_byte bytes.
Proof.
  intros Hascii E. unfold normalised. rewrite E. clear E.
  induction Hascii as [ | b bytes Hb _ IH ].
  - reflexivity.
  - cbn [map Ascii7.encode_xmlcharrefreplace].
    unfold Ascii7.encode_char.
    replace (Byte.to_N b <? 128)%N with true
      by (symmetry; apply N.ltb_lt; exact Hb).
    cbn [String.append]. rewrite IH, <- ascii_of_byte_via_N. reflexivity.
Qed.

(** The decoder [Utf8.decode_replace] reads ASCII bytes as their own code
    points. *)
Lemma decode_loop_ascii (s : list N) (fuel : nat) :
  Forall (fun b => (b < 128)%N) s ->
  (List.length s <= fuel)%nat ->
  Utf8.decode_loop fuel s = s.
Proof.
  revert s. induction fuel as [ | fuel IH ]; intros s Hs Hlen.
  - destruct s; [ reflexivity | simpl in Hlen; lia ].
  - destruct s as [ | b s ]; [ reflexivity | ].
    inversion Hs as [ | ? ? Hb Hs' ]; subst.
    cbn [Utf8.decode_loop Utf8.decode_one]. unfold Utf8.code_length.
    replace (b <? 128)%N with true by (symmetry; apply N.ltb_lt; exact Hb).
    cbn [skipn]. rewrite IH; [ reflexivity | exact Hs' | ].
    simpl in Hlen. lia.
Qed.

Lemma decode_replace_ascii (bytes : list byte) :
  Forall (fun b => (Byte.to_N b < 128)%N) bytes ->
  Utf8.decode_replace bytes = map Byte.to_N bytes.
Proof.
  intros H. unfold Utf8.decode_replace. apply decode_loop_ascii.
  - apply Forall_map. exact H.
  - apply Nat.le_refl.
Qed.

Lemma append_semicolon_inj (a b : string) :
  (a ++ ";")%string = (b ++ ";")%string -> a = b.
Proof.
  revert b. induction a as [ | c a IH ]; intros [ | d b ]; simpl; intros E.
  - reflexivity.
  - inversion E as [[Hc Hb]]. destruct b; discriminate.
  - inversion E as [[Hc Ha]]. destruct a; discriminate.
  - inversion E as [[Hc Ha]]. f_equal. apply IH. exact Ha.
Qed.

(** X11. What is written for a code point tells the code point: two code
    points have the same encoding (the character itself below 128, the
    decimal reference [&#...;] from 128 on) exactly when they are equal. *)
Theorem encode_char_injective (c1 c2 : N) :
  Ascii7.encode_char c1 = Ascii7.encode_char c2 <-> c1 = c2.
Proof.
  split; [ | intros ->; reflexivity ].
  unfold Ascii7.encode_char, Ascii7.xmlcharref.
  destruct (N.ltb_spec c1 128) as [H1 | H1];
    destruct (N.ltb_spec c2 128) as [H2 | H2]; simpl; intros E.
  - inversion E as [Ha].
    rewrite <- (N_ascii_embedding c1), <- (N_ascii_embedding c2) by lia.
    rewrite Ha. reflexivity.
  - inversion E.
  - inversion E.
  - inversion E as [Hd]. apply append_semicolon_inj in Hd.
    apply DecimalN.Unsigned.to_uint_inj.
    assert (Hs : Some (N.to_uint c1) = Some (N.to_uint c2))
      by (rewrite <- !NilEmpty.usu, Hd; reflexivity).
    inversion Hs. reflexivity.
Qed.

(** ** The grouping of [list_snapshots] *)

Lemma getitem_append (d : RequestHandler.defaultdict) (h' x h : string) :
  RequestHandler.getitem (RequestHandler.append d h' x) h
  = if String.eqb h' h
    then Some (match RequestHandler.getitem d h with
               | Some l => l ++ [x]
               | None => [x]
               end)
    else RequestHandler.getitem d h.
Proof.
  induction d as [ | [k v] d IH ]; simpl.
  - destruct (String.eqb h' h); reflexivity.
  - destruct (String.eqb_spec k h') as [-> | Hk]; simpl.
    + destruct (String.eqb h' h); reflexivity.
    + rewrite IH. destruct (String.eqb_spec k h) as [-> | Hkh].
      * destruct (String.eqb_spec h' h) as [-> | _];
          [ contradiction | reflexivity ].
      * reflexivity.
Qed.

Lemma keys_append (d : RequestHandler.defaultdict) (h x k : string) :
  In k (map fst (RequestHandler.append d h x)) ->
  In k (map fst d) \/ k = h.
Proof.
  induction d as [ | [k0 v] d IH ]; simpl.
  - intros [<- | []]. auto.
  - destruct (String.eqb k0 h); simpl; intros [<- | H]; auto.
    destruct (IH H); auto.
Qed.

Lemma keys_append_NoDup (d : RequestHandler.defaultdict) (h x : string) :
  NoDup (map fst d) -> NoDup (map fst (RequestHandler.append d h x)).
Proof.
  induction d as [ | [k v] d IH ]; simpl; intros H.
  - repeat constructor. intros [].
  - inversion H as [ | ? ? Hk Hd ]; subst.
    destruct (String.eqb_spec k h) as [-> | Hkh]; simpl.
    + constructor; assumption.
    + constructor; [ | apply IH; exact Hd ].
      intros Hin. apply keys_append in Hin. destruct Hin; auto.
Qed.

(** The titles of hostname [h] in a list of pairs, in the order of the
    list. *)
Lemma getitem_fold (infos : list (string * string))
  (d : RequestHandler.defaultdict) (h : string) :
  RequestHandler.getitem
    (fold_left (fun d '(hostname, title) =>
                  RequestHandler.append d hostname title) infos d) h
  = match RequestHandler.getitem d h,
          map snd (filter (fun p => String.eqb (fst p) h) infos) with
    | None, [] => None
    | None, g => Some g
    | Some l, g => Some (l ++ g)
    end.
Proof.
  revert d. induction infos as [ | [h' x] infos IH ]; intros d; simpl.
  - destruct (RequestHandler.getitem d h); [ rewrite app_nil_r | ];
      reflexivity.
  - rewrite IH, getitem_append.
    destruct (String.eqb h' h); simpl.
    + destruct (RequestHandler.getitem d h); [ rewrite <- app_assoc | ];
        reflexivity.
    + reflexivity.
Qed.

Lemma keys_fold_NoDup (infos : list (string * string))
  (d : RequestHandler.defaultdict) :
  NoDup (map fst d) ->
  NoDup (map fst
           (fold_left (fun d '(hostname, title) =>
                         RequestHandler.append d hostname title) infos d)).
Proof.
  revert d. induction infos as [ | [h x] infos IH ]; intros d H; simpl.
  - exact H.
  - apply IH. apply keys_append_NoDup. exact H.
Qed.

Lemma filter_perm {A} (f : A -> bool) (l l' : list A) :
  Permutation l l' -> Permutation (filter f l) (filter f l').
Proof.
  induction 1 as [ | x l l' _ IH | x y l | l l' l'' _ IH1 _ IH2 ]; simpl.
  - constructor.
  - destruct (f x); [ constructor | ]; exact IH.
  - destruct (f x), (f y); try reflexivity. apply perm_swap.
  - etransitivity; eassumption.
Qed.

Lemma titles_sorted (h : string) (l : list (string * string)) :
  StronglySorted pair_le l ->
  StronglySorted str_le
    (map snd (filter (fun p => String.eqb (fst p) h) l)).
Proof.
  induction 1 as [ | p l Hs IH Hall ]; simpl.
  - constructor.
  - destruct (String.eqb_spec (fst p) h) as [Hp | _]; [ | exact IH ].
    simpl. constructor; [ exact IH | ].
    rewrite Forall_forall in *. intros x Hx.
    apply in_map_iff in Hx. destruct Hx as (q & <- & Hq).
    apply filter_In in Hq. destruct Hq as [Hq Hqh].
    apply String.eqb_eq in Hqh.
    destruct (Hall q Hq) as [Hlt | [_ Hle]]; [ | exact Hle ].
    exfalso. rewrite Hp, Hqh in Hlt.
    exact (String_as_OT.lt_not_eq _ _ Hlt eq_refl).
Qed.

Lemma infos_at_sorted (t : datetime) (s : Session) :
  StronglySorted pair_le (infos_at t s).
Proof.
  rewrite (proj2 (infos_at_eq t s)).
  apply Sorted_StronglySorted; [ intros p q r; apply pair_le_trans | ].
  apply sorted_map
    with (R := fun a b => Database.hostname_title_leb a b = true).
  - apply hostname_title_leb_pair_le.
  - apply order_by_sorted. apply hostname_title_leb_total.
Qed.

Lemma titles_of_host (t : datetime) (h : string) (s : Session) :
  Permutation
    (map snd (filter (fun p => String.eqb (fst p) h) (infos_at t s)))
    (map Snapshot.title (filter (from_host t h) s)).
Proof.
  rewrite (proj2 (infos_at_eq t s)).
  assert (E : forall l,
            map snd (filter (fun p => String.eqb (fst p) h) (map info l))
            = map Snapshot.title
                (filter (fun r => String.eqb (Snapshot.hostname r) h) l)).
  { induction l as [ | r l IH ]; simpl; [ reflexivity | ].
    destruct (String.eqb (Snapshot.hostname r) h); simpl; rewrite IH;
      reflexivity. }
  rewrite E. apply Permutation_map.
  etransitivity; [ apply filter_perm, order_by_perm | ].
  rewrite filter_filter. reflexivity.
Qed.

(** X12. The context that [list_snapshots] gives to its template: the
    session is left as it was, every hostname is a key at most once, the
    hostnames that are keys are exactly those with a row in the window
    [t, t + 60 s), and the list under a hostname holds the titles of its
    rows in the window, one per row, in ascending order. *)
Theorem list_snapshots_groups_titles (s : Session) (t : datetime) :
  exists data_map,
    RequestHandler.list_snapshots t s = (Ok (t, data_map), s)
    /\ NoDup (map fst data_map)
    /\ forall h,
         match RequestHandler.getitem data_map h with
         | Some titles =>
             titles <> []
             /\ StronglySorted str_le titles
             /\ Permutation titles
                  (map Snapshot.title (filter (from_host t h) s))
         | None => filter (from_host t h) s = []
         end.
Proof.
  eexists. split; [ | split ].
  - unfold RequestHandler.list_snapshots, bind.
    rewrite (proj1 (infos_at_eq t s)). reflexivity.
  - apply keys_fold_NoDup. constructor.
  - intros h. rewrite getitem_fold. simpl RequestHandler.getitem.
    pose proof (titles_sorted h _ (infos_at_sorted t s)) as Hsorted.
    pose proof (titles_of_host t h s) as Hperm.
    destruct (map snd (filter _ (infos_at t s))) as [ | x g ].
    + apply Permutation_nil in Hperm.
      destruct (filter (from_host t h) s); [ reflexivity | discriminate ].
    + split; [ discriminate | split; assumption ].
Qed.

(** [test_list_snapshots_at_time], grouped. *)
Example list_snapshots_data_map :
  fst (RequestHandler.list_snapshots datetime_now
         (run Utf8.decode_replace
            [ _add_snapshot datetime_now datetime_now "myhost" "some stuff";
              _add_snapshot datetime_now datetime_now "otherhost" "some stuff";
              _add_snapshot datetime_now datetime_now "myhost" "other stuff";
              _add_snapshot datetime_now (datetime_now - ONE_MINUTE)
                "myhost" "some stuff" ] []))
  = Ok (datetime_now,
        [ ("myhost", ["other stuff"; "some stuff"]);
          ("otherhost", ["some stuff"]) ]%string).
Proof. vm_compute. reflexivity. Qed.

(** ** The further properties on the data of the test suite *)

(** [test_list_days]. *)
Example list_days :
  days_of
    (run Utf8.decode_replace
       [ _add_snapshot datetime_now datetime_now "myhost" "some stuff";
         _add_snapshot datetime_now (datetime_now - ONE_MINUTE)
           "myhost" "some stuff";
         _add_snapshot datetime_now (datetime_now - ONE_DAY)
           "myhost" "some stuff" ] [])
  = [ mk_date 2013 9 20; mk_date 2013 9 21 ].
Proof. vm_compute. reflexivity. Qed.


(** Witness of X7: a write for a third host next to the rows of two hosts
    leaves the read of the first as it was. *)
Lemma add_elsewhere_keeps_read_witness :
  let s' :=
    snd (Database.add_snapshot Utf8.decode_replace datetime_now datetime_now
           "thirdhost" "some stuff" smiling_imp two_hosts) in
  Database.add_snapshot Utf8.decode_replace datetime_now datetime_now
    "thirdhost" "some stuff" smiling_imp two_hosts = (Ok tt, s')
  /\ datetime_now - timedelta_days 14 <= datetime_now
  /\ ~ (datetime_now <= datetime_now < datetime_now + 60 * SECOND
        /\ "thirdhost"%string = "myhost"%string
        /\ "some stuff"%string = "some stuff"%string)
  /\ fst (Database.get_snapshot_contents datetime_now "myhost" "some stuff"
            s')
     = fst (Database.get_snapshot_contents datetime_now "myhost"
              "some stuff" two_hosts).
Proof.
  intros s'.
  assert (H1 : Database.add_snapshot Utf8.decode_replace datetime_now
                 datetime_now "thirdhost" "some stuff" smiling_imp two_hosts
               = (Ok tt, s')) by (vm_compute; reflexivity).
  assert (H2 : datetime_now - timedelta_days 14 <= datetime_now)
    by (vm_compute; discriminate).
  assert (H3 : ~ (datetime_now <= datetime_now < datetime_now + 60 * SECOND
                  /\ "thirdhost"%string = "myhost"%string
                  /\ "some stuff"%string = "some stuff"%string))
    by (intros (_ & E & _); discriminate).
  split; [ exact H1 | split; [ exact H2 | split; [ exact H3 | ] ] ].
  exact (add_elsewhere_keeps_read Utf8.decode_replace two_hosts s'
           datetime_now datetime_now "thirdhost" "some stuff" smiling_imp
           datetime_now "myhost" "some stuff" H1 H2 H3).
Defined.

(** Witness of X10: [test_add_and_fetch_snapshot], the bytes of
    [hello world!]. *)
Lemma ascii_contents_stored_verbatim_witness :
  Forall (fun b => (Byte.to_N b < 128)%N) hello_world
  /\ Utf8.decode_replace hello_world = map Byte.to_N hello_world
  /\ normalised Utf8.decode_replace hello_world = "hello world!"%string.
Proof.
  assert (H1 : Forall (fun b => (Byte.to_N b < 128)%N) hello_world)
    by (repeat constructor).
  assert (H2 : Utf8.decode_replace hello_world = map Byte.to_N hello_world)
    by (vm_compute; reflexivity).
  split; [ exact H1 | split; [ exact H2 | ] ].
  exact (ascii_contents_stored_verbatim Utf8.decode_replace hello_world
           H1 H2).
Defined.
